(** * The Geekbox GPIO fan driver (drivers/misc/geekbox-fan.c)

    A shallow embedding of the driver and of the kernel services it calls,
    and the properties of its mode controller and thermal poll loop.

    The driver's functions are written as programs over the kernel calls
    they make ([kcall]); a handler ([handle]) gives the calls their meaning
    on a [world] holding the GPIO lines, the delayed work of the device,
    the sensor and the device tree.  Facts about what the driver asks for
    are read off the programs; facts about the outcome go through the
    handler. *)

From stdpp Require Import gmap pretty.
From Stdlib Require Import ZArith Ascii String List Lia.
Import ListNotations.

#[local] Open Scope string_scope.
#[local] Open Scope Z_scope.

(** ** Constants of the source *)

Definition GBOX_FAN_TRIG_TEMP : Z := 50.
Definition GBOX_FAN_LOOP_NODELAY_SECS : Z := 0.
Definition GBOX_FAN_GPIO_OFF : Z := 0.
Definition GBOX_FAN_GPIO_ON : Z := 1.

(** [enum gbox_fan_mode].  The field that holds it is assigned a plain
    [int] by [fan_mode_store], so it is kept as the integer it stores. *)
Definition GBOX_FAN_STATE_OFF : Z := 0.
Definition GBOX_FAN_STATE_ON : Z := 1.
Definition GBOX_FAN_STATE_AUTO : Z := 2.

(** errno values of the kernel headers *)
Definition ENOENT : Z := 2.
Definition EIO : Z := 5.
Definition ENOMEM : Z := 12.
Definition EINVAL : Z := 22.

(** The line feed. *)
Definition LF : string := String "010"%char EmptyString.

(** A [u32] cell read through an [int] lvalue, as [gbox_fan_probe] does
    when it hands [&fan_data->trig_temp] to [of_property_read_u32]. *)
Definition int_of_u32 (v : Z) : Z :=
  let c := v mod 2 ^ 32 in
  if c <? 2 ^ 31 then c else c - 2 ^ 32.

(** ** Data *)

(** [struct gbox_fan_data].  The [work] member is owned by the work queue
    and lives in the [world] below; [pdev] and [class] are never read. *)
Record gbox_fan_data := mk_fan_data {
  regulator : Z;
  mode : Z;
  ctrl_gpio : Z;
  trig_temp : Z
}.

(** what [devm_kzalloc] hands out: every member zero *)
Definition zeroed : gbox_fan_data :=
  {| regulator := 0; mode := 0; ctrl_gpio := 0; trig_temp := 0 |}.

Definition with_mode (m : Z) (d : gbox_fan_data) : gbox_fan_data :=
  {| regulator := regulator d; mode := m;
     ctrl_gpio := ctrl_gpio d; trig_temp := trig_temp d |}.

Definition with_regulator (r : Z) (d : gbox_fan_data) : gbox_fan_data :=
  {| regulator := r; mode := mode d;
     ctrl_gpio := ctrl_gpio d; trig_temp := trig_temp d |}.

Definition with_ctrl_gpio (g : Z) (d : gbox_fan_data) : gbox_fan_data :=
  {| regulator := regulator d; mode := mode d;
     ctrl_gpio := g; trig_temp := trig_temp d |}.

Definition with_trig_temp (t : Z) (d : gbox_fan_data) : gbox_fan_data :=
  {| regulator := regulator d; mode := mode d;
     ctrl_gpio := ctrl_gpio d; trig_temp := t |}.

(** ** Kernel calls and programs *)

(** The services the driver calls, indexed by what they return. *)
Inductive kcall : Type -> Type :=
| regulator_get_voltage (reg : Z) : kcall Z
| rockchip_tsadc_get_temp (chn voltage : Z) : kcall Z
| gpio_set_value (gpio value : Z) : kcall unit
| schedule_delayed_work (delay : Z) : kcall bool
| cancel_delayed_work : kcall bool
| devm_kzalloc : kcall bool
| of_property_read_u32 (propname : string) : kcall (Z * Z)
| of_get_named_gpio (propname : string) (index : Z) : kcall Z
| gpio_request (gpio : Z) (label : string) : kcall Z
| gpio_direction_output (gpio value : Z) : kcall Z
| regulator_get (id : string) : kcall Z
| INIT_DELAYED_WORK : kcall unit
| platform_set_drvdata : kcall unit
| class_create (name : string) : kcall Z
| device_create (name : string) : kcall unit
| dev_info (value : Z) : kcall unit
| regulator_put (reg : Z) : kcall unit.

(** A program: a result, or a call and what to do with its answer. *)
Inductive prog (A : Type) : Type :=
| Ret (a : A)
| Call {R : Type} (c : kcall R) (k : R -> prog A).

Arguments Ret {A} a.
Arguments Call {A R} c k.

Fixpoint bind {A B : Type} (p : prog A) (f : A -> prog B) : prog B :=
  match p with
  | Ret a => f a
  | Call c k => Call c (fun r => bind (k r) f)
  end.

Definition call {R : Type} (c : kcall R) : prog R := Call c Ret.

Declare Scope prog_scope.
Delimit Scope prog_scope with prog.
Notation "x <- p ;; q" := (bind p (fun x => q))
  (at level 100, p at next level, right associativity) : prog_scope.
Notation "p ;; q" := (bind p (fun _ => q))
  (at level 100, right associativity) : prog_scope.
#[local] Open Scope prog_scope.

(** A call whatever it returns, for the record of calls a run keeps. *)
Definition acall : Type := {R : Type & kcall R}.
Definition some_call {R : Type} (c : kcall R) : acall := existT R c.

Definition is_cancel (c : acall) : bool :=
  match projT2 c with cancel_delayed_work => true | _ => false end.

Definition is_schedule (c : acall) : bool :=
  match projT2 c with schedule_delayed_work _ => true | _ => false end.

Definition is_gpio_write (c : acall) : bool :=
  match projT2 c with
  | gpio_set_value _ _ | gpio_direction_output _ _ => true
  | _ => false
  end.

(** ** The driver *)

Section Driver.

(** Of the kernel configuration and of [linux/rockchip/common.h]: the
    timer frequency and the reading that stands for no temperature. *)
Variable HZ : Z.
Variable INVALID_TEMP : Z.

(** [lib/kstrtox.c]: the return value and, when that is 0, the number
    read from the buffer in the given base. *)
Variable kstrtoint : string -> Z -> Z * Z.

Definition GBOX_FAN_LOOP_SECS : Z := 30 * HZ.

Definition fan_work_func (fan_data : gbox_fan_data) : prog unit :=
  volt <- call (regulator_get_voltage (regulator fan_data)) ;;
  temp <- call (rockchip_tsadc_get_temp 0 volt) ;;
  (if (trig_temp fan_data <? temp) && negb (temp =? INVALID_TEMP)
   then call (gpio_set_value (ctrl_gpio fan_data) GBOX_FAN_GPIO_ON)
   else call (gpio_set_value (ctrl_gpio fan_data) GBOX_FAN_GPIO_OFF)) ;;
  call (schedule_delayed_work GBOX_FAN_LOOP_SECS) ;;
  Ret tt.

Definition gbox_fan_mode_set (fan_data : gbox_fan_data) : prog unit :=
  if mode fan_data =? GBOX_FAN_STATE_OFF then
    call cancel_delayed_work ;;
    call (gpio_set_value (ctrl_gpio fan_data) GBOX_FAN_GPIO_OFF)
  else if mode fan_data =? GBOX_FAN_STATE_ON then
    call cancel_delayed_work ;;
    call (gpio_set_value (ctrl_gpio fan_data) GBOX_FAN_GPIO_ON)
  else if mode fan_data =? GBOX_FAN_STATE_AUTO then
    call (schedule_delayed_work GBOX_FAN_LOOP_NODELAY_SECS) ;;
    Ret tt
  else
    Ret tt.

(** [sprintf(buf, "Fan mode: %d\n", fan_data->mode)]: the text written
    and its length, which is what the function returns. *)
Definition fan_mode_show (fan_data : gbox_fan_data) : Z * string :=
  let text :=
    ("Fan mode: " +:+ pretty (mode fan_data) +:+ LF)%string in
  (Z.of_nat (String.length text), text).

(** Returns the value of the call and the contents of [*fan_data]
    afterwards. *)
Definition fan_mode_store (fan_data : gbox_fan_data) (buf : string)
    (count : Z) : prog (Z * gbox_fan_data) :=
  let (err, mode) := kstrtoint buf 3 in
  if negb (err =? 0) then Ret (- EINVAL, fan_data)
  else
    let fan_data := with_mode mode fan_data in
    gbox_fan_mode_set fan_data ;;
    Ret (count, fan_data).

(** Returns the value of the call and the driver data, if the
    allocation gave any. *)
Definition gbox_fan_probe : prog (Z * option gbox_fan_data) :=
  ok <- call devm_kzalloc ;;
  if negb ok then Ret (- ENOMEM, None)
  else
    let fan_data := zeroed in
    r <- call (of_property_read_u32 "trig-temp") ;;
    (* the callee stores the cell through the pointer only when it
       returns 0 *)
    let fan_data :=
      if fst r =? 0 then with_trig_temp (int_of_u32 (snd r)) fan_data
      else fan_data in
    let fan_data :=
      if fst r <? 0 then with_trig_temp GBOX_FAN_TRIG_TEMP fan_data
      else fan_data in
    gpio <- call (of_get_named_gpio "ctrl-gpio" 0) ;;
    let fan_data := with_ctrl_gpio gpio fan_data in
    req <- call (gpio_request (ctrl_gpio fan_data) "FAN") ;;
    if negb (req =? 0) then Ret (- EIO, Some fan_data)
    else
      call (gpio_direction_output (ctrl_gpio fan_data) GBOX_FAN_GPIO_OFF) ;;
      let fan_data := with_mode GBOX_FAN_STATE_OFF fan_data in
      reg <- call (regulator_get "vdd_arm") ;;
      let fan_data := with_regulator reg fan_data in
      call INIT_DELAYED_WORK ;;
      call platform_set_drvdata ;;
      fclass <- call (class_create "fan") ;;
      if fclass <? 0 then Ret (fclass, Some fan_data)
      else
        call (device_create "ctrl") ;;
        call (dev_info (trig_temp fan_data)) ;;
        Ret (0, Some fan_data).

Definition gbox_fan_remove (fan_data : gbox_fan_data)
    : prog (Z * gbox_fan_data) :=
  let fan_data := with_mode GBOX_FAN_STATE_OFF fan_data in
  gbox_fan_mode_set fan_data ;;
  call (regulator_put (regulator fan_data)) ;;
  Ret (0, fan_data).

Definition gbox_fan_shutdown (fan_data : gbox_fan_data)
    : prog (unit * gbox_fan_data) :=
  let fan_data := with_mode GBOX_FAN_STATE_OFF fan_data in
  gbox_fan_mode_set fan_data ;;
  Ret (tt, fan_data).

End Driver.

(** ** The kernel side *)

(** A [struct delayed_work] as the work queue sees it: the pending flag of
    the work, and the instances of it that are queued, each with the delay
    (in jiffies) it was queued with. *)
Record delayed_work := mk_work {
  pending : bool;
  armed : list Z
}.

(** What the sensor path answers at the moment: the voltage of the
    regulator, and the conversion the TSADC performs. *)
Record sensor := mk_sensor {
  vdd_arm : Z;
  tsadc : Z -> Z -> Z
}.

(** What the platform answers at probe time. *)
Record platform := mk_platform {
  alloc_ok : bool;
  of_u32 : gmap string Z;
  of_gpio : gmap string Z;
  gpio_request_ret : Z -> Z;
  regulator_handle : Z;
  class_err : Z
}.

Record world := mk_world {
  gpio_lines : gmap Z Z;
  work : delayed_work;
  sens : sensor;
  plat : platform;
  klog : list acall
}.

Definition with_lines (l : gmap Z Z) (w : world) : world :=
  {| gpio_lines := l; work := work w; sens := sens w; plat := plat w;
     klog := klog w |}.

Definition with_work (d : delayed_work) (w : world) : world :=
  {| gpio_lines := gpio_lines w; work := d; sens := sens w; plat := plat w;
     klog := klog w |}.

Definition with_sens (s : sensor) (w : world) : world :=
  {| gpio_lines := gpio_lines w; work := work w; sens := s; plat := plat w;
     klog := klog w |}.

Definition with_klog (l : list acall) (w : world) : world :=
  {| gpio_lines := gpio_lines w; work := work w; sens := sens w;
     plat := plat w; klog := l |}.

(** The number of poll tasks queued for the device. *)
Definition pending_tasks (w : world) : nat := length (armed (work w)).

(** Modelled from the spec: the timer and work-queue collaborator
    ([schedule_after] and [cancel] there; [schedule_delayed_work] and
    [cancel_delayed_work] of kernel/workqueue.c, which the driver only
    calls).  The spec has the pending task as "a cancellable handle to the
    scheduled next poll invocation", the queue as one "where at most one
    invocation of the poll tick for a given controller is ever outstanding",
    and cancellation of a task that does not exist as "a safe no-op".  The
    kernel achieves this with the pending flag of the work: a request to
    queue a work whose flag is set is refused and answers [false], leaving
    what is queued as it is; otherwise the flag is set, the work is queued
    with the delay asked for and the answer is [true]. *)
Definition wq_schedule (delay : Z) (d : delayed_work) : bool * delayed_work :=
  if pending d then (false, d)
  else (true, {| pending := true; armed := delay :: armed d |}).

(** Modelled from the spec: cancellation by the same collaborator.  A work
    whose flag is set has its queued instance taken off and its flag
    cleared, and the answer is [true]; with the flag clear nothing is done
    and the answer is [false]. *)
Definition wq_cancel (d : delayed_work) : bool * delayed_work :=
  if pending d then (true, {| pending := false; armed := tl (armed d) |})
  else (false, d).

(** Modelled from the spec: the worker that runs a queued task when its
    delay has passed.  It takes the instance off the queue and clears the
    pending flag before it calls the work function; with nothing queued
    there is nothing to run. *)
Definition wq_fire (d : delayed_work) : option delayed_work :=
  match armed d with
  | [] => None
  | _ :: rest => Some {| pending := false; armed := rest |}
  end.

(** Modelled from the spec: the remaining collaborators, none of which is
    part of the driver.  [set_output] (gpio_set_value, and
    gpio_direction_output which also makes the line an output) drives the
    line and cannot fail; [read_voltage] and [voltage_to_temperature]
    answer what the sensor path holds; the device tree and the other
    probe-time services answer what the platform holds; a property that
    is missing, or is no cell of the kind asked for, is not in the maps
    and yields the error of the of_ accessors. *)
Definition handle {R : Type} (c : kcall R) : world -> R * world :=
  match c in kcall R return world -> R * world with
  | regulator_get_voltage _ => fun w => (vdd_arm (sens w), w)
  | rockchip_tsadc_get_temp chn voltage =>
      fun w => (tsadc (sens w) chn voltage, w)
  | gpio_set_value gpio value =>
      fun w => (tt, with_lines (<[gpio := value]> (gpio_lines w)) w)
  | schedule_delayed_work delay =>
      fun w => let (r, d) := wq_schedule delay (work w) in (r, with_work d w)
  | cancel_delayed_work =>
      fun w => let (r, d) := wq_cancel (work w) in (r, with_work d w)
  | devm_kzalloc => fun w => (alloc_ok (plat w), w)
  | of_property_read_u32 propname =>
      fun w => match of_u32 (plat w) !! propname with
               | Some v => ((0, v), w)
               | None => ((- EINVAL, 0), w)
               end
  | of_get_named_gpio propname _ =>
      fun w => match of_gpio (plat w) !! propname with
               | Some g => (g, w)
               | None => (- ENOENT, w)
               end
  | gpio_request gpio _ => fun w => (gpio_request_ret (plat w) gpio, w)
  | gpio_direction_output gpio value =>
      fun w => (0, with_lines (<[gpio := value]> (gpio_lines w)) w)
  | regulator_get _ => fun w => (regulator_handle (plat w), w)
  | INIT_DELAYED_WORK =>
      fun w => (tt, with_work {| pending := false; armed := [] |} w)
  | platform_set_drvdata => fun w => (tt, w)
  | class_create _ => fun w => (class_err (plat w), w)
  | device_create _ => fun w => (tt, w)
  | dev_info _ => fun w => (tt, w)
  | regulator_put _ => fun w => (tt, w)
  end.

(** Running a program: every call is entered in the record of calls, then
    answered by the handler. *)
Fixpoint run {A : Type} (p : prog A) (w : world) : A * world :=
  match p with
  | Ret a => (a, w)
  | Call c k =>
      let (r, w') := handle c (with_klog (klog w ++ [some_call c]) w) in
      run (k r) w'
  end.

(** The calls a program makes, in order, when run from [w]. *)
Definition calls_of {A : Type} (p : prog A) (w : world) : list acall :=
  klog (snd (run p (with_klog [] w))).

(** The level of a line; [None] for a line never driven. *)
Definition line (w : world) (gpio : Z) : option Z := gpio_lines w !! gpio.

(** The pending flag and the queue agree: one instance queued when the
    flag is set, none when it is clear. *)
Definition wq_ok (d : delayed_work) : Prop :=
  length (armed d) = if pending d then 1%nat else 0%nat.

(** A cancellation comes before any request to schedule and before any
    write to a GPIO line. *)
Fixpoint cancels_first (l : list acall) : bool :=
  match l with
  | [] => false
  | c :: l' =>
      if is_cancel c then true
      else if is_schedule c || is_gpio_write c then false
      else cancels_first l'
  end.

(** ** The device over time *)

(** The driver data of the device and the kernel around it. *)
Record system := mk_system {
  drvdata : gbox_fan_data;
  kernel : world
}.

(** What can happen to a probed device: a write to its [mode] attribute,
    the queued poll task coming due, the sensor path changing its answers,
    removal and shutdown. *)
Inductive event :=
| ev_store (buf : string) (count : Z)
| ev_timer
| ev_sensor (s : sensor)
| ev_remove
| ev_shutdown.

Section System.

Variable HZ : Z.
Variable INVALID_TEMP : Z.
Variable kstrtoint : string -> Z -> Z * Z.

(** One poll tick: the worker takes the queued task and calls the work
    function.  Nothing happens when no task is queued. *)
Definition tick (s : system) : system :=
  match wq_fire (work (kernel s)) with
  | None => s
  | Some d =>
      let (_, w) :=
        run (fan_work_func HZ INVALID_TEMP (drvdata s))
            (with_work d (kernel s)) in
      {| drvdata := drvdata s; kernel := w |}
  end.

Definition step (e : event) (s : system) : system :=
  match e with
  | ev_store buf count =>
      let (r, w) :=
        run (fan_mode_store kstrtoint (drvdata s) buf count) (kernel s) in
      {| drvdata := snd r; kernel := w |}
  | ev_timer => tick s
  | ev_sensor sn =>
      {| drvdata := drvdata s; kernel := with_sens sn (kernel s) |}
  | ev_remove =>
      let (r, w) := run (gbox_fan_remove (drvdata s)) (kernel s) in
      {| drvdata := snd r; kernel := w |}
  | ev_shutdown =>
      let (r, w) := run (gbox_fan_shutdown (drvdata s)) (kernel s) in
      {| drvdata := snd r; kernel := w |}
  end.

Definition exec (evs : list event) (s : system) : system :=
  fold_left (fun s e => step e s) evs s.

(** The device after a probe that returned 0. *)
Definition boot (w : world) : option system :=
  match run gbox_fan_probe w with
  | ((0, Some fan_data), w') => Some {| drvdata := fan_data; kernel := w' |}
  | _ => None
  end.

(** An event that takes the device to Off or On: a store of 0 or 1,
    removal, shutdown. *)
Definition leaves_auto (e : event) : Prop :=
  match e with
  | ev_store buf _ =>
      kstrtoint buf 3 = (0, GBOX_FAN_STATE_OFF) \/
      kstrtoint buf 3 = (0, GBOX_FAN_STATE_ON)
  | ev_remove | ev_shutdown => True
  | ev_timer | ev_sensor _ => False
  end.

End System.

(** ** A parser to run the examples with *)

Definition ERANGE : Z := 34.

(** Modelled from the spec: the value of a digit, for the parser of the
    mode value below ([_parse_integer] of lib/kstrtox.c). *)
Definition digit_value (c : ascii) : option Z :=
  let n := Z.of_N (N_of_ascii c) in
  if (48 <=? n) && (n <=? 57) then Some (n - 48)
  else if (97 <=? n) && (n <=? 102) then Some (n - 87)
  else if (65 <=? n) && (n <=? 70) then Some (n - 55)
  else None.

(** Modelled from the spec: the digits below [base] at the head of [s],
    for the same parser: their value, their number and what follows
    them. *)
Fixpoint parse_integer (base : Z) (s : string) (acc : Z) (n : nat)
    : Z * nat * string :=
  match s with
  | EmptyString => (acc, n, s)
  | String c s' =>
      match digit_value c with
      | Some v =>
          if v <? base then parse_integer base s' (acc * base + v) (S n)
          else (acc, n, s)
      | None => (acc, n, s)
      end
  end.

(** Modelled from the spec: the unsigned numeral of the same parser: at
    least one digit, at most one line feed after the digits, then the end;
    64 bits at most. *)
Definition kstrtoull_digits (s : string) (base : Z) : Z * Z :=
  let '(v, n, rest) := parse_integer base s 0 0 in
  if 2 ^ 64 <=? v then (- ERANGE, 0)
  else if Nat.eqb n 0 then (- EINVAL, 0)
  else
    let rest := match rest with String "010"%char r => r | _ => rest end in
    match rest with
    | EmptyString => (0, v)
    | _ => (- EINVAL, 0)
    end.

(** Modelled from the spec: the sign of the same parser; a minus sign wants
    a number that is negative, a plus sign or none one that fits 63
    bits. *)
Definition kstrtoll_signed (s : string) (base : Z) : Z * Z :=
  match s with
  | String "-"%char s' =>
      let (rv, tmp) := kstrtoull_digits s' base in
      if rv <? 0 then (rv, 0)
      else if (tmp =? 0) || (2 ^ 63 <? tmp) then (- ERANGE, 0)
      else (0, - tmp)
  | _ =>
      let s := match s with String "+"%char s' => s' | _ => s end in
      let (rv, tmp) := kstrtoull_digits s base in
      if rv <? 0 then (rv, 0)
      else if 2 ^ 63 <=? tmp then (- ERANGE, 0)
      else (0, tmp)
  end.

(** Modelled from the spec: the "way to receive an externally-set integer
    mode value", which is [kstrtoint] of lib/kstrtox.c and no part of the
    driver.  An optional sign, digits of the base (any base but 0 and 16,
    which have a prefix rule), at most one line feed after them and nothing
    else; the number has to fit an [int].  The theorems below hold for any
    parser; this one runs the examples. *)
Definition kstrtoint_ref (s : string) (base : Z) : Z * Z :=
  let (rv, tmp) := kstrtoll_signed s base in
  if rv <? 0 then (rv, 0)
  else if (tmp <? - 2 ^ 31) || (2 ^ 31 <=? tmp) then (- ERANGE, 0)
  else (0, tmp).

(** ** An environment to run the examples in *)

(** The sensor path when the chip is at [temp] degrees. *)
Definition bench_sensor (temp : Z) : sensor :=
  {| vdd_arm := 1100000; tsadc := fun _ _ => temp |}.

(** A board whose device node names line 17 as ["ctrl-gpio"] and, when
    [trig] is given, carries it as ["trig-temp"]. *)
Definition bench_platform (trig : option Z) : platform :=
  {| alloc_ok := true;
     of_u32 := match trig with
               | Some t => {[ "trig-temp" := t ]}
               | None => ∅
               end;
     of_gpio := {[ "ctrl-gpio" := 17 ]};
     gpio_request_ret := fun _ => 0;
     regulator_handle := 1;
     class_err := 0 |}.

Definition bench_world (trig : option Z) (temp : Z) : world :=
  {| gpio_lines := ∅;
     work := {| pending := false; armed := [] |};
     sens := bench_sensor temp;
     plat := bench_platform trig;
     klog := [] |}.

(** The reading a poll tick run now would get. *)
Definition reading (w : world) : Z := tsadc (sens w) 0 (vdd_arm (sens w)).

(** The level the poll tick drives for a reading. *)
Definition tick_level (INVALID_TEMP : Z) (fan_data : gbox_fan_data)
    (temp : Z) : Z :=
  if (trig_temp fan_data <? temp) && negb (temp =? INVALID_TEMP)
  then GBOX_FAN_GPIO_ON else GBOX_FAN_GPIO_OFF.

(** What the platform holds for the probe. *)
Definition configured_gpio (p : platform) : Z :=
  match of_gpio p !! "ctrl-gpio" with Some g => g | None => - ENOENT end.

Definition configured_trig_temp (p : platform) : Z :=
  match of_u32 p !! "trig-temp" with
  | Some v => int_of_u32 v
  | None => GBOX_FAN_TRIG_TEMP
  end.

(** What [gbox_fan_mode_set] asks of the kernel, by the mode it finds. *)
Definition mode_set_calls (fan_data : gbox_fan_data) : list acall :=
  if mode fan_data =? GBOX_FAN_STATE_OFF then
    [ some_call cancel_delayed_work;
      some_call (gpio_set_value (ctrl_gpio fan_data) GBOX_FAN_GPIO_OFF) ]
  else if mode fan_data =? GBOX_FAN_STATE_ON then
    [ some_call cancel_delayed_work;
      some_call (gpio_set_value (ctrl_gpio fan_data) GBOX_FAN_GPIO_ON) ]
  else if mode fan_data =? GBOX_FAN_STATE_AUTO then
    [ some_call (schedule_delayed_work GBOX_FAN_LOOP_NODELAY_SECS) ]
  else [].

(** The GPIO lines it leaves behind. *)
Definition mode_set_lines (fan_data : gbox_fan_data) (l : gmap Z Z)
    : gmap Z Z :=
  if mode fan_data =? GBOX_FAN_STATE_OFF then
    <[ctrl_gpio fan_data := GBOX_FAN_GPIO_OFF]> l
  else if mode fan_data =? GBOX_FAN_STATE_ON then
    <[ctrl_gpio fan_data := GBOX_FAN_GPIO_ON]> l
  else l.

(** The delayed work it leaves behind. *)
Definition mode_set_work (fan_data : gbox_fan_data) (d : delayed_work)
    : delayed_work :=
  if mode fan_data =? GBOX_FAN_STATE_OFF then snd (wq_cancel d)
  else if mode fan_data =? GBOX_FAN_STATE_ON then snd (wq_cancel d)
  else if mode fan_data =? GBOX_FAN_STATE_AUTO then
    snd (wq_schedule GBOX_FAN_LOOP_NODELAY_SECS d)
  else d.

(** The driver data of the bench device in mode [m]: line 17, trigger at
    50 degrees. *)
Definition bench_fan_data (m : Z) : gbox_fan_data :=
  {| regulator := 1; mode := m; ctrl_gpio := 17; trig_temp := 50 |}.

(** The invalid reading of the bench: the largest [int]. *)
Definition INT_MAX : Z := 2147483647.

(** What [echo] writes for a numeral: the digits and a line feed. *)
Definition echo (digits : string) : string := (digits +:+ LF)%string.

(** The bench device after its probe: 50 degrees configured, 55 read. *)
Definition bench_booted : system :=
  default {| drvdata := zeroed; kernel := bench_world None 0 |}
          (boot (bench_world (Some 50) 55)).

(** The bench device as time goes by, at 100 jiffies a second. *)
Definition bench_after (evs : list event) : system :=
  exec 100 INT_MAX kstrtoint_ref evs bench_booted.

(** In Auto, after the first tick: the next one is queued. *)
Definition bench_auto : system :=
  bench_after [ev_store (echo "2") 2; ev_timer].

(** ** States and events of the device *)

(** The delayed work with nothing queued. *)
Definition idle : delayed_work := {| pending := false; armed := [] |}.



(** The return value of the probe, read off what the platform answers. *)
Definition probe_status (p : platform) : Z :=
  if negb (alloc_ok p) then - ENOMEM
  else if negb (gpio_request_ret p (configured_gpio p) =? 0) then - EIO
  else if class_err p <? 0 then class_err p
  else 0.

(** The bench board with its line taken by somebody else: the request
    answers -EBUSY. *)
Definition bench_world_busy : world :=
  {| gpio_lines := ∅;
     work := idle;
     sens := bench_sensor 55;
     plat := {| alloc_ok := true;
                of_u32 := ∅;
                of_gpio := {[ "ctrl-gpio" := 17 ]};
                gpio_request_ret := fun _ => -16;
                regulator_handle := 1;
                class_err := 0 |};
     klog := [] |}.

(** The bench board on which the class cannot be created: -ENOMEM. *)
Definition bench_world_noclass : world :=
  {| gpio_lines := ∅;
     work := idle;
     sens := bench_sensor 55;
     plat := {| alloc_ok := true;
                of_u32 := ∅;
                of_gpio := {[ "ctrl-gpio" := 17 ]};
                gpio_request_ret := fun _ => 0;
                regulator_handle := 1;
                class_err := -12 |};
     klog := [] |}.

(** ** Running programs *)

Example kstrtoint_ref_two : kstrtoint_ref "2" 3 = (0, 2).
Proof. reflexivity. Qed.

Example kstrtoint_ref_ten : kstrtoint_ref (echo "10") 3 = (0, 3).
Proof. reflexivity. Qed.

Example kstrtoint_ref_minus : kstrtoint_ref "-1" 3 = (0, -1).
Proof. reflexivity. Qed.

Example kstrtoint_ref_digit : kstrtoint_ref "3" 3 = (- EINVAL, 0).
Proof. reflexivity. Qed.

Example kstrtoint_ref_word : kstrtoint_ref "auto" 3 = (- EINVAL, 0).
Proof. reflexivity. Qed.

Lemma run_bind {A B : Type} (p : prog A) (f : A -> prog B) (w : world) :
  run (bind p f) w = let (a, w') := run p w in run (f a) w'.
Proof.
  revert w. induction p as [a | R c k IH]; intros w; simpl.
  - reflexivity.
  - destruct (handle c _) as [r w']. apply IH.
Qed.

(** *** The invariant of the work queue *)

Lemma wq_schedule_ok (delay : Z) (d : delayed_work) :
  wq_ok d -> wq_ok (snd (wq_schedule delay d)).
Proof.
  unfold wq_ok, wq_schedule. destruct d as [[|] q]; simpl; intros H.
  - exact H.
  - rewrite H. reflexivity.
Qed.

Lemma wq_cancel_ok (d : delayed_work) :
  wq_ok d -> wq_ok (snd (wq_cancel d)).
Proof.
  unfold wq_ok, wq_cancel. destruct d as [[|] q]; simpl; intros H.
  - destruct q as [|x q]; simpl in *; [discriminate | lia].
  - exact H.
Qed.

Lemma wq_fire_ok (d d' : delayed_work) :
  wq_ok d -> wq_fire d = Some d' -> wq_ok d' /\ pending d' = false.
Proof.
  unfold wq_ok, wq_fire. destruct d as [p q]; simpl.
  destruct q as [|x q]; intros H E; [discriminate |].
  injection E as <-. simpl. split; [| reflexivity].
  destruct p; simpl in H; [lia | discriminate].
Qed.

Lemma handle_wq_ok {R : Type} (c : kcall R) (w : world) :
  wq_ok (work w) -> wq_ok (work (snd (handle c w))).
Proof.
  intros H. destruct c; simpl; try exact H.
  - pose proof (wq_schedule_ok delay _ H) as H'.
    destruct (wq_schedule _ _); exact H'.
  - pose proof (wq_cancel_ok _ H) as H'.
    destruct (wq_cancel _); exact H'.
  - destruct (_ !! _); exact H.
  - destruct (_ !! _); exact H.
  - reflexivity.
Qed.

(** Whatever program is run, the flag and the queue stay in agreement. *)
Lemma run_wq_ok {A : Type} (p : prog A) (w : world) :
  wq_ok (work w) -> wq_ok (work (snd (run p w))).
Proof.
  revert w. induction p as [a | R c k IH]; intros w H; simpl.
  - exact H.
  - pose proof (handle_wq_ok c (with_klog (klog w ++ [some_call c]) w) H) as H'.
    destruct (handle c _) as [r w']. apply IH. exact H'.
Qed.

(** ** The poll tick *)

Section Tick.

Variable HZ : Z.
Variable INVALID_TEMP : Z.

(** What a run of the work function amounts to. *)
Lemma run_fan_work_func (fan_data : gbox_fan_data) (w : world) :
  run (fan_work_func HZ INVALID_TEMP fan_data) w =
    (tt,
     {| gpio_lines :=
          <[ctrl_gpio fan_data := tick_level INVALID_TEMP fan_data (reading w)]>
            (gpio_lines w);
        work := snd (wq_schedule (30 * HZ) (work w));
        sens := sens w;
        plat := plat w;
        klog := klog w ++
          [ some_call (regulator_get_voltage (regulator fan_data));
            some_call (rockchip_tsadc_get_temp 0 (vdd_arm (sens w)));
            some_call (gpio_set_value (ctrl_gpio fan_data)
                         (tick_level INVALID_TEMP fan_data (reading w)));
            some_call (schedule_delayed_work (30 * HZ)) ] |}).
Proof.
  unfold fan_work_func, tick_level, reading, GBOX_FAN_LOOP_SECS. simpl.
  destruct (_ && _); simpl;
    destruct (wq_schedule _ _); simpl;
    rewrite <- !app_assoc; reflexivity.
Qed.

End Tick.

(** ** The mode controller *)

Lemma run_gbox_fan_mode_set (fan_data : gbox_fan_data) (w : world) :
  run (gbox_fan_mode_set fan_data) w =
    (tt,
     {| gpio_lines := mode_set_lines fan_data (gpio_lines w);
        work := mode_set_work fan_data (work w);
        sens := sens w;
        plat := plat w;
        klog := klog w ++ mode_set_calls fan_data |}).
Proof.
  unfold gbox_fan_mode_set, mode_set_lines, mode_set_work, mode_set_calls.
  destruct w as [l d s p lg].
  destruct (mode fan_data =? GBOX_FAN_STATE_OFF);
    [| destruct (mode fan_data =? GBOX_FAN_STATE_ON);
       [| destruct (mode fan_data =? GBOX_FAN_STATE_AUTO)]];
    simpl.
  - destruct (wq_cancel d); simpl. rewrite <- app_assoc. reflexivity.
  - destruct (wq_cancel d); simpl. rewrite <- app_assoc. reflexivity.
  - destruct (wq_schedule _ d); reflexivity.
  - rewrite app_nil_r. reflexivity.
Qed.

Lemma calls_of_gbox_fan_mode_set (fan_data : gbox_fan_data) (w : world) :
  calls_of (gbox_fan_mode_set fan_data) w = mode_set_calls fan_data.
Proof. unfold calls_of. rewrite run_gbox_fan_mode_set. reflexivity. Qed.

(** The goal is the invariant after the run of a program, [H] the
    invariant before it. *)
Ltac by_run_wq_ok H :=
  match goal with
  | |- context [run ?p ?w] =>
      let H' := fresh "H" in
      pose proof (run_wq_ok p w H) as H';
      destruct (run p w); exact H'
  end.

Lemma wq_no_task (d : delayed_work) :
  wq_ok d -> length (armed d) = 0%nat ->
  d = {| pending := false; armed := [] |}.
Proof.
  unfold wq_ok. destruct d as [p q]; simpl. intros H L.
  destruct q as [|x q]; [| discriminate].
  destruct p; [discriminate | reflexivity].
Qed.

Section Runs.

Variable HZ : Z.
Variable INVALID_TEMP : Z.
Variable kstrtoint : string -> Z -> Z * Z.

Lemma run_fan_mode_store (fan_data : gbox_fan_data) (buf : string)
    (count : Z) (w : world) :
  run (fan_mode_store kstrtoint fan_data buf count) w =
    if fst (kstrtoint buf 3) =? 0 then
      let fan_data' := with_mode (snd (kstrtoint buf 3)) fan_data in
      ((count, fan_data'), snd (run (gbox_fan_mode_set fan_data') w))
    else ((- EINVAL, fan_data), w).
Proof.
  unfold fan_mode_store. destruct (kstrtoint buf 3) as [err m].
  cbn [fst snd]. destruct (err =? 0); cbn [negb]; [| reflexivity].
  rewrite run_bind. destruct (run (gbox_fan_mode_set _) w). reflexivity.
Qed.

Lemma run_gbox_fan_shutdown (fan_data : gbox_fan_data) (w : world) :
  run (gbox_fan_shutdown fan_data) w =
    let fan_data' := with_mode GBOX_FAN_STATE_OFF fan_data in
    ((tt, fan_data'), snd (run (gbox_fan_mode_set fan_data') w)).
Proof.
  unfold gbox_fan_shutdown. cbv zeta. rewrite run_bind.
  destruct (run (gbox_fan_mode_set _) w) as [[] w']. reflexivity.
Qed.

Lemma run_gbox_fan_remove (fan_data : gbox_fan_data) (w : world) :
  run (gbox_fan_remove fan_data) w =
    let fan_data' := with_mode GBOX_FAN_STATE_OFF fan_data in
    let w' := snd (run (gbox_fan_mode_set fan_data') w) in
    ((0, fan_data'),
     with_klog (klog w' ++ [some_call (regulator_put (regulator fan_data))])
               w').
Proof.
  unfold gbox_fan_remove. cbv zeta. rewrite run_bind.
  destruct (run (gbox_fan_mode_set _) w) as [[] w']. reflexivity.
Qed.

(** A tick with a task queued: the worker takes it, the work function
    runs and queues the next one. *)
Lemma tick_work (s : system) (delay : Z) (rest : list Z) :
  armed (work (kernel s)) = delay :: rest ->
  work (kernel (tick HZ INVALID_TEMP s)) =
    {| pending := true; armed := 30 * HZ :: rest |}.
Proof.
  intros E. unfold tick, wq_fire. rewrite E.
  rewrite run_fan_work_func. reflexivity.
Qed.

Lemma step_wq_ok (e : event) (s : system) :
  wq_ok (work (kernel s)) ->
  wq_ok (work (kernel (step HZ INVALID_TEMP kstrtoint e s))).
Proof.
  intros H. destruct e as [buf count | | sn | |]; unfold step.
  - by_run_wq_ok H.
  - unfold tick. destruct (wq_fire (work (kernel s))) as [d |] eqn:F;
      [| exact H].
    destruct (wq_fire_ok _ _ H F) as [Hd _]. by_run_wq_ok Hd.
  - exact H.
  - by_run_wq_ok H.
  - by_run_wq_ok H.
Qed.

Lemma exec_wq_ok (evs : list event) (s : system) :
  wq_ok (work (kernel s)) ->
  wq_ok (work (kernel (exec HZ INVALID_TEMP kstrtoint evs s))).
Proof.
  revert s. induction evs as [| e evs IH]; intros s H; simpl.
  - exact H.
  - apply IH, step_wq_ok, H.
Qed.

End Runs.

Lemma boot_spec (w : world) (s : system) :
  boot w = Some s ->
  drvdata s =
    {| regulator := regulator_handle (plat w);
       mode := GBOX_FAN_STATE_OFF;
       ctrl_gpio := configured_gpio (plat w);
       trig_temp := configured_trig_temp (plat w) |} /\
  work (kernel s) = {| pending := false; armed := [] |} /\
  gpio_lines (kernel s) =
    <[configured_gpio (plat w) := GBOX_FAN_GPIO_OFF]> (gpio_lines w) /\
  sens (kernel s) = sens w /\ plat (kernel s) = plat w.
Proof.
  unfold boot, gbox_fan_probe, configured_gpio, configured_trig_temp.
  simpl.
  destruct (alloc_ok (plat w)); simpl; [| discriminate].
  destruct (of_u32 (plat w) !! "trig-temp") as [v |]; simpl;
    destruct (of_gpio (plat w) !! "ctrl-gpio") as [g |]; simpl;
    (destruct (gpio_request_ret (plat w) _ =? 0); simpl; [| discriminate]);
    (destruct (class_err (plat w)) as [| c | c] eqn:C; simpl;
     try discriminate);
    intros H; injection H as <-; simpl; repeat split; reflexivity.
Qed.

Section Frames.

Variable HZ : Z.
Variable INVALID_TEMP : Z.
Variable kstrtoint : string -> Z -> Z * Z.

(** No event writes the trigger temperature. *)
Lemma step_trig_temp (e : event) (s : system) :
  trig_temp (drvdata (step HZ INVALID_TEMP kstrtoint e s)) =
  trig_temp (drvdata s).
Proof.
  destruct e as [buf count | | sn | |]; unfold step.
  - rewrite run_fan_mode_store.
    destruct (fst (kstrtoint buf 3) =? 0); reflexivity.
  - unfold tick. destruct (wq_fire _); [| reflexivity].
    rewrite run_fan_work_func. reflexivity.
  - reflexivity.
  - rewrite run_gbox_fan_remove. reflexivity.
  - rewrite run_gbox_fan_shutdown. reflexivity.
Qed.

Lemma exec_trig_temp (evs : list event) (s : system) :
  trig_temp (drvdata (exec HZ INVALID_TEMP kstrtoint evs s)) =
  trig_temp (drvdata s).
Proof.
  revert s. induction evs as [| e evs IH]; intros s; simpl.
  - reflexivity.
  - rewrite IH. apply step_trig_temp.
Qed.

End Frames.

Lemma int_of_u32_small (v : Z) : 0 <= v < 2 ^ 31 -> int_of_u32 v = v.
Proof.
  intros H. unfold int_of_u32. rewrite Z.mod_small by lia.
  destruct (Z.ltb_spec v (2 ^ 31)); lia.
Qed.

Section Claims.

Variable HZ : Z.
Variable INVALID_TEMP : Z.
Variable kstrtoint : string -> Z -> Z * Z.

(** C1.  A poll tick run in Auto mode with trigger temperature T leaves the
    output pin ON exactly when the reading is not the invalid value and is
    strictly above T, and OFF in every other case: an invalid reading, a
    reading equal to T, a reading below T. *)
Theorem poll_tick_decision (fan_data : gbox_fan_data) (w : world) :
  mode fan_data = GBOX_FAN_STATE_AUTO ->
  (line (snd (run (fan_work_func HZ INVALID_TEMP fan_data) w))
        (ctrl_gpio fan_data) = Some GBOX_FAN_GPIO_ON
   <-> reading w <> INVALID_TEMP /\ trig_temp fan_data < reading w) /\
  (line (snd (run (fan_work_func HZ INVALID_TEMP fan_data) w))
        (ctrl_gpio fan_data) = Some GBOX_FAN_GPIO_OFF
   <-> ~ (reading w <> INVALID_TEMP /\ trig_temp fan_data < reading w)).
Proof.
  intros _. rewrite run_fan_work_func. unfold line, tick_level. simpl.
  rewrite lookup_insert_eq.
  destruct (Z.ltb_spec (trig_temp fan_data) (reading w)) as [Hlt | Hge];
    destruct (Z.eqb_spec (reading w) INVALID_TEMP) as [Heq | Hne]; simpl;
    unfold GBOX_FAN_GPIO_ON, GBOX_FAN_GPIO_OFF;
    split; split; intros H;
    try discriminate; try reflexivity; try tauto; try lia;
    try (exfalso; apply H; split; [exact Hne | exact Hlt]).
Qed.

(** C2.  From any state in which the pending flag and the queue agree,
    [gbox_fan_mode_set] with the mode at Off or On asks for the
    cancellation and then for the pin to be driven, and nothing else; no
    poll task is left queued (if none was queued, the delayed work is as it
    was), and the output pin is OFF for Off and ON for On. *)
Theorem mode_set_off_on (fan_data : gbox_fan_data) (w : world) :
  wq_ok (work w) ->
  mode fan_data = GBOX_FAN_STATE_OFF \/ mode fan_data = GBOX_FAN_STATE_ON ->
  calls_of (gbox_fan_mode_set fan_data) w =
    [ some_call cancel_delayed_work;
      some_call (gpio_set_value (ctrl_gpio fan_data)
                   (if mode fan_data =? GBOX_FAN_STATE_OFF
                    then GBOX_FAN_GPIO_OFF else GBOX_FAN_GPIO_ON)) ] /\
  work (snd (run (gbox_fan_mode_set fan_data) w)) =
    {| pending := false; armed := [] |} /\
  pending_tasks (snd (run (gbox_fan_mode_set fan_data) w)) = 0%nat /\
  (pending_tasks w = 0%nat ->
   work (snd (run (gbox_fan_mode_set fan_data) w)) = work w) /\
  line (snd (run (gbox_fan_mode_set fan_data) w)) (ctrl_gpio fan_data) =
    Some (if mode fan_data =? GBOX_FAN_STATE_OFF
          then GBOX_FAN_GPIO_OFF else GBOX_FAN_GPIO_ON).
Proof.
  intros Hok Hm.
  rewrite calls_of_gbox_fan_mode_set, run_gbox_fan_mode_set.
  unfold mode_set_calls, mode_set_work, mode_set_lines, pending_tasks, line.
  cbn [snd work gpio_lines].
  assert (Hc : snd (wq_cancel (work w)) = {| pending := false; armed := [] |}).
  { unfold wq_ok in Hok. unfold wq_cancel.
    destruct (work w) as [[|] [| x [| y q]]]; simpl in *;
      try discriminate; reflexivity. }
  assert (Hn : length (armed (work w)) = 0%nat ->
               {| pending := false; armed := [] |} = work w).
  { intros L. symmetry. apply wq_no_task; assumption. }
  destruct Hm as [Hm | Hm]; rewrite Hm; cbn [Z.eqb GBOX_FAN_STATE_OFF
    GBOX_FAN_STATE_ON Pos.eqb]; rewrite Hc, lookup_insert_eq;
    repeat split; try reflexivity; exact Hn.
Qed.

(** C3.  From a successful probe on, whatever writes to the mode
    attribute, poll ticks, sensor changes, removals and shutdowns follow in
    whatever order, at most one poll task is queued for the device after
    each of them. *)
Theorem at_most_one_pending_task (w0 : world) (s0 : system)
    (evs : list event) :
  boot w0 = Some s0 ->
  (pending_tasks (kernel (exec HZ INVALID_TEMP kstrtoint evs s0)) <= 1)%nat.
Proof.
  intros B. apply boot_spec in B as (_ & Hw & _).
  assert (H0 : wq_ok (work (kernel s0))) by (rewrite Hw; reflexivity).
  pose proof (exec_wq_ok HZ INVALID_TEMP kstrtoint evs s0 H0) as H.
  unfold wq_ok in H. unfold pending_tasks. rewrite H.
  destruct (pending _); lia.
Qed.

(** C4, as amended.  [gbox_fan_mode_set] cancels first, then drives the
    pin, when the mode is Off or On, whether or not a task is queued; when
    the mode is Auto its only call is the request for a zero-delay tick,
    with no cancellation before it; for any other value it calls
    nothing. *)
Theorem mode_set_cancellation (fan_data : gbox_fan_data) (w : world) :
  calls_of (gbox_fan_mode_set fan_data) w =
    (if mode fan_data =? GBOX_FAN_STATE_OFF then
       [ some_call cancel_delayed_work;
         some_call (gpio_set_value (ctrl_gpio fan_data) GBOX_FAN_GPIO_OFF) ]
     else if mode fan_data =? GBOX_FAN_STATE_ON then
       [ some_call cancel_delayed_work;
         some_call (gpio_set_value (ctrl_gpio fan_data) GBOX_FAN_GPIO_ON) ]
     else if mode fan_data =? GBOX_FAN_STATE_AUTO then
       [ some_call (schedule_delayed_work GBOX_FAN_LOOP_NODELAY_SECS) ]
     else []) /\
  cancels_first (calls_of (gbox_fan_mode_set fan_data) w) =
    (mode fan_data =? GBOX_FAN_STATE_OFF) ||
    (mode fan_data =? GBOX_FAN_STATE_ON).
Proof.
  rewrite calls_of_gbox_fan_mode_set. unfold mode_set_calls.
  split; [reflexivity |].
  destruct (mode fan_data =? GBOX_FAN_STATE_OFF); [reflexivity |].
  destruct (mode fan_data =? GBOX_FAN_STATE_ON); [reflexivity |].
  destruct (mode fan_data =? GBOX_FAN_STATE_AUTO); reflexivity.
Qed.

(** C5.  Whatever the mode and whatever the sensor answers, the last call
    of the work function is the request to run again after 30 * HZ jiffies,
    which is 30 seconds; a tick taken from the queue leaves that next task
    queued in the place of the one it took; and an event that finds a task
    queued and leaves none is a transition to Off or On (a store of 0 or 1,
    removal, shutdown), the ones that cancel. *)
Theorem poll_tick_reschedules (s : system) (e : event) :
  (exists before,
     calls_of (fan_work_func HZ INVALID_TEMP (drvdata s)) (kernel s) =
       (before ++ [some_call (schedule_delayed_work (30 * HZ))])%list) /\
  (forall delay rest,
     armed (work (kernel s)) = delay :: rest ->
     work (kernel (tick HZ INVALID_TEMP s)) =
       {| pending := true; armed := 30 * HZ :: rest |}) /\
  (pending_tasks (kernel s) <> 0%nat ->
   pending_tasks (kernel (step HZ INVALID_TEMP kstrtoint e s)) = 0%nat ->
   leaves_auto kstrtoint e).
Proof.
  split; [| split].
  - unfold calls_of. rewrite run_fan_work_func. cbn [snd klog with_klog].
    eexists [_; _; _]. reflexivity.
  - intros delay rest Hq. apply (tick_work HZ INVALID_TEMP s delay rest Hq).
  - unfold pending_tasks. intros H1.
    destruct (armed (work (kernel s))) as [| delay rest] eqn:Hq;
      [contradiction |].
    destruct e as [buf count | | sn | |]; unfold step, leaves_auto.
    + rewrite run_fan_mode_store.
      destruct (kstrtoint buf 3) as [err m]. cbn [fst snd].
      destruct (Z.eqb_spec err 0) as [-> | Hne].
      * cbv zeta. rewrite run_gbox_fan_mode_set.
        unfold mode_set_work. cbn [snd kernel work mode with_mode].
        destruct (Z.eqb_spec m GBOX_FAN_STATE_OFF) as [-> | ?];
          [intros _; left; reflexivity |].
        destruct (Z.eqb_spec m GBOX_FAN_STATE_ON) as [-> | ?];
          [intros _; right; reflexivity |].
        destruct (m =? GBOX_FAN_STATE_AUTO); [| rewrite Hq; discriminate].
        unfold wq_schedule. destruct (pending (work (kernel s)));
          cbn [snd armed]; [rewrite Hq |]; discriminate.
      * cbn [kernel]. rewrite Hq. discriminate.
    + rewrite (tick_work HZ INVALID_TEMP s delay rest Hq). discriminate.
    + cbn [kernel with_sens work]. rewrite Hq. discriminate.
    + intros _. exact I.
    + intros _. exact I.
Qed.

(** C6, as amended.  A write to the mode attribute is rejected, with
    -EINVAL and nothing changed, exactly when [kstrtoint] fails on the
    buffer read in base 3; every integer it reads, one of Off, On and Auto
    or not, is accepted and the call returns the written count. *)
Theorem store_rejects_unparsed_only (fan_data : gbox_fan_data)
    (buf : string) (count : Z) (w : world) :
  fst (fst (run (fan_mode_store kstrtoint fan_data buf count) w)) =
    (if fst (kstrtoint buf 3) =? 0 then count else - EINVAL) /\
  (fst (kstrtoint buf 3) <> 0 ->
   run (fan_mode_store kstrtoint fan_data buf count) w =
     ((- EINVAL, fan_data), w)).
Proof.
  rewrite run_fan_mode_store.
  destruct (Z.eqb_spec (fst (kstrtoint buf 3)) 0) as [E | E].
  - split; [reflexivity | intros H; contradiction].
  - split; reflexivity.
Qed.

(** C7, as amended.  A store of Auto returns the written count and leaves
    the mode at Auto whatever the work queue answers to the request: the
    program of [gbox_fan_mode_set] goes on the same way for either answer
    of [schedule_delayed_work] and returns nothing. *)
Theorem auto_store_ignores_scheduler (fan_data : gbox_fan_data)
    (buf : string) (count : Z) (w : world) :
  kstrtoint buf 3 = (0, GBOX_FAN_STATE_AUTO) ->
  fst (run (fan_mode_store kstrtoint fan_data buf count) w) =
    (count, with_mode GBOX_FAN_STATE_AUTO fan_data) /\
  gbox_fan_mode_set (with_mode GBOX_FAN_STATE_AUTO fan_data) =
    Call (schedule_delayed_work GBOX_FAN_LOOP_NODELAY_SECS)
         (fun _ : bool => Ret tt).
Proof.
  intros E. rewrite run_fan_mode_store, E. split; reflexivity.
Qed.

(** C8, as amended.  With the mode at Auto, [gbox_fan_mode_set] makes one
    call, the request for a poll tick with delay 0, and leaves every GPIO
    line as it was.  The tick is queued when no poll task is pending; when
    one is pending the request is refused and the delayed work, with the
    delay of the pending task, is as it was. *)
Theorem auto_entry_requests_tick (fan_data : gbox_fan_data) (w : world) :
  mode fan_data = GBOX_FAN_STATE_AUTO ->
  calls_of (gbox_fan_mode_set fan_data) w =
    [ some_call (schedule_delayed_work 0) ] /\
  gpio_lines (snd (run (gbox_fan_mode_set fan_data) w)) = gpio_lines w /\
  work (snd (run (gbox_fan_mode_set fan_data) w)) =
    (if pending (work w) then work w
     else {| pending := true; armed := 0 :: armed (work w) |}).
Proof.
  intros Hm.
  rewrite calls_of_gbox_fan_mode_set, run_gbox_fan_mode_set.
  unfold mode_set_calls, mode_set_work, mode_set_lines, wq_schedule.
  rewrite Hm. cbn [snd work gpio_lines Z.eqb GBOX_FAN_STATE_OFF
    GBOX_FAN_STATE_ON GBOX_FAN_STATE_AUTO Pos.eqb].
  repeat split. destruct (pending (work w)); reflexivity.
Qed.

(** C9.  After a successful probe the trigger temperature is the
    ["trig-temp"] cell of the device node read as an [int], or 50 when the
    node has none, and it is the same after every sequence of stores, poll
    ticks, sensor changes, removals and shutdowns. *)
Theorem trig_temp_fixed (w0 : world) (s0 : system) (evs : list event) :
  boot w0 = Some s0 ->
  trig_temp (drvdata (exec HZ INVALID_TEMP kstrtoint evs s0)) =
    match of_u32 (plat w0) !! "trig-temp" with
    | Some v => int_of_u32 v
    | None => 50
    end.
Proof.
  intros B. rewrite exec_trig_temp.
  apply boot_spec in B as (Hd & _). rewrite Hd. reflexivity.
Qed.

(** C10.  When [kstrtoint] reads from the buffer an integer m other than
    0, 1 and 2, the store returns the written count and leaves m in the
    mode field, so that the text [fan_mode_show] writes is "Fan mode: m";
    no kernel call is made: GPIO lines and delayed work are untouched. *)
Theorem store_out_of_range (fan_data : gbox_fan_data) (buf : string)
    (count : Z) (w : world) (m : Z) :
  kstrtoint buf 3 = (0, m) ->
  m <> 0 -> m <> 1 -> m <> 2 ->
  run (fan_mode_store kstrtoint fan_data buf count) w =
    ((count, with_mode m fan_data), w) /\
  mode (with_mode m fan_data) = m /\
  snd (fan_mode_show (with_mode m fan_data)) =
    ("Fan mode: " +:+ pretty m +:+ LF)%string.
Proof.
  intros E H0 H1 H2. rewrite run_fan_mode_store, E.
  cbn [fst snd Z.eqb]. cbv zeta. rewrite run_gbox_fan_mode_set.
  unfold mode_set_calls, mode_set_work, mode_set_lines.
  cbn [mode with_mode snd].
  destruct (Z.eqb_spec m GBOX_FAN_STATE_OFF) as [-> | _]; [contradiction |].
  destruct (Z.eqb_spec m GBOX_FAN_STATE_ON) as [-> | _]; [contradiction |].
  destruct (Z.eqb_spec m GBOX_FAN_STATE_AUTO) as [-> | _]; [contradiction |].
  rewrite app_nil_r. destruct w; repeat split; reflexivity.
Qed.

End Claims.

(** ** The bench device *)

Example bench_boots : boot (bench_world (Some 50) 55) = Some bench_booted.
Proof. vm_compute. reflexivity. Qed.

Example bench_auto_state :
  drvdata bench_auto = bench_fan_data 2 /\
  work (kernel bench_auto) = {| pending := true; armed := [3000] |} /\
  line (kernel bench_auto) 17 = Some GBOX_FAN_GPIO_ON.
Proof. vm_compute. repeat split. Qed.

(** Probe, then nothing: mode Off, pin OFF, no task. *)
Example scenario_probe :
  drvdata bench_booted = bench_fan_data GBOX_FAN_STATE_OFF /\
  line (kernel bench_booted) 17 = Some GBOX_FAN_GPIO_OFF /\
  pending_tasks (kernel bench_booted) = 0%nat.
Proof. vm_compute. repeat split. Qed.

(** A store of On: pin ON at once, no task. *)
Example scenario_on :
  line (kernel (bench_after [ev_store (echo "1") 2])) 17
    = Some GBOX_FAN_GPIO_ON /\
  pending_tasks (kernel (bench_after [ev_store (echo "1") 2])) = 0%nat.
Proof. vm_compute. repeat split. Qed.

(** A store of Auto queues a tick with no delay and leaves the pin; the
    tick reads 55 and turns the pin ON; the next tick reads the invalid
    value and turns it OFF; each tick queues the next. *)
Example scenario_auto :
  work (kernel (bench_after [ev_store (echo "2") 2])) =
    {| pending := true; armed := [0] |} /\
  line (kernel (bench_after [ev_store (echo "2") 2])) 17
    = Some GBOX_FAN_GPIO_OFF /\
  line (kernel (bench_after [ev_store (echo "2") 2; ev_timer])) 17
    = Some GBOX_FAN_GPIO_ON /\
  line (kernel (bench_after [ev_store (echo "2") 2; ev_timer;
                             ev_sensor (bench_sensor INT_MAX); ev_timer])) 17
    = Some GBOX_FAN_GPIO_OFF /\
  work (kernel (bench_after [ev_store (echo "2") 2; ev_timer;
                             ev_sensor (bench_sensor INT_MAX); ev_timer])) =
    {| pending := true; armed := [3000] |}.
Proof. vm_compute. repeat split. Qed.

(** A reading equal to the trigger temperature leaves the pin OFF. *)
Example scenario_boundary :
  line (kernel (bench_after [ev_sensor (bench_sensor 50);
                             ev_store (echo "2") 2; ev_timer])) 17
    = Some GBOX_FAN_GPIO_OFF.
Proof. vm_compute. reflexivity. Qed.

(** Auto, then Off before the first tick: the task is gone, the pin is
    OFF, and a timer that comes due finds nothing to run. *)
Example scenario_auto_off :
  work (kernel (bench_after [ev_store (echo "2") 2; ev_store (echo "0") 2])) =
    {| pending := false; armed := [] |} /\
  line (kernel (bench_after [ev_store (echo "2") 2; ev_store (echo "0") 2])) 17
    = Some GBOX_FAN_GPIO_OFF /\
  bench_after [ev_store (echo "2") 2; ev_store (echo "0") 2; ev_timer] =
    bench_after [ev_store (echo "2") 2; ev_store (echo "0") 2].
Proof. vm_compute. repeat split. Qed.

(** Off twice is Off once, but for the record of calls. *)
Example scenario_off_twice :
  work (kernel (bench_after [ev_store (echo "0") 2; ev_store (echo "0") 2])) =
    work (kernel (bench_after [ev_store (echo "0") 2])) /\
  gpio_lines (kernel (bench_after [ev_store (echo "0") 2;
                                   ev_store (echo "0") 2])) =
    gpio_lines (kernel (bench_after [ev_store (echo "0") 2])).
Proof. vm_compute. repeat split. Qed.

Lemma poll_tick_decision_witness :
  mode (bench_fan_data 2) = GBOX_FAN_STATE_AUTO /\
  line (snd (run (fan_work_func 100 INT_MAX (bench_fan_data 2))
                 (bench_world (Some 50) 55)))
       (ctrl_gpio (bench_fan_data 2)) = Some GBOX_FAN_GPIO_ON.
Proof.
  split; [reflexivity |].
  destruct (poll_tick_decision 100 INT_MAX (bench_fan_data 2)
              (bench_world (Some 50) 55) eq_refl) as [[_ H] _].
  apply H. vm_compute. split; [discriminate | reflexivity].
Defined.

Lemma mode_set_off_on_witness :
  wq_ok (work (kernel bench_auto)) /\
  pending_tasks (kernel bench_auto) = 1%nat /\
  pending_tasks
    (snd (run (gbox_fan_mode_set (bench_fan_data 1)) (kernel bench_auto)))
    = 0%nat.
Proof.
  assert (Hok : wq_ok (work (kernel bench_auto))) by (vm_compute; reflexivity).
  split; [exact Hok |]. split; [vm_compute; reflexivity |].
  exact (proj1 (proj2 (proj2
    (mode_set_off_on (bench_fan_data 1) (kernel bench_auto) Hok
       (or_intror eq_refl))))).
Defined.

Lemma at_most_one_pending_task_witness :
  boot (bench_world (Some 50) 55) = Some bench_booted /\
  (pending_tasks
     (kernel (exec 100 INT_MAX kstrtoint_ref
                [ev_store (echo "2") 2; ev_store (echo "2") 2; ev_timer;
                 ev_store (echo "2") 2]
                bench_booted)) <= 1)%nat.
Proof.
  assert (B : boot (bench_world (Some 50) 55) = Some bench_booted)
    by (vm_compute; reflexivity).
  split; [exact B |].
  exact (at_most_one_pending_task 100 INT_MAX kstrtoint_ref
           (bench_world (Some 50) 55) bench_booted _ B).
Defined.

Lemma poll_tick_reschedules_witness :
  armed (work (kernel bench_auto)) = [3000] /\
  work (kernel (tick 100 INT_MAX bench_auto)) =
    {| pending := true; armed := [30 * 100] |} /\
  pending_tasks (kernel bench_auto) <> 0%nat /\
  pending_tasks
    (kernel (step 100 INT_MAX kstrtoint_ref (ev_store (echo "0") 2)
               bench_auto)) = 0%nat /\
  leaves_auto kstrtoint_ref (ev_store (echo "0") 2).
Proof.
  assert (Hq : armed (work (kernel bench_auto)) = [3000])
    by (vm_compute; reflexivity).
  assert (H1 : pending_tasks (kernel bench_auto) <> 0%nat)
    by (vm_compute; discriminate).
  assert (H0 : pending_tasks
                 (kernel (step 100 INT_MAX kstrtoint_ref
                            (ev_store (echo "0") 2) bench_auto)) = 0%nat)
    by (vm_compute; reflexivity).
  destruct (poll_tick_reschedules 100 INT_MAX kstrtoint_ref bench_auto
              (ev_store (echo "0") 2)) as (_ & Hw & Hl).
  split; [exact Hq |]. split; [exact (Hw 3000 [] Hq) |].
  split; [exact H1 |]. split; [exact H0 |]. exact (Hl H1 H0).
Defined.

Lemma store_rejects_unparsed_only_witness :
  fst (kstrtoint_ref "auto" 3) <> 0 /\
  run (fan_mode_store kstrtoint_ref (bench_fan_data 1) "auto" 4)
      (kernel bench_auto) = ((- EINVAL, bench_fan_data 1), kernel bench_auto).
Proof.
  assert (H : fst (kstrtoint_ref "auto" 3) <> 0) by (vm_compute; discriminate).
  split; [exact H |].
  exact (proj2 (store_rejects_unparsed_only kstrtoint_ref (bench_fan_data 1)
                  "auto" 4 (kernel bench_auto)) H).
Defined.

Lemma auto_store_ignores_scheduler_witness :
  kstrtoint_ref (echo "2") 3 = (0, GBOX_FAN_STATE_AUTO) /\
  fst (wq_schedule GBOX_FAN_LOOP_NODELAY_SECS (work (kernel bench_auto)))
    = false /\
  fst (run (fan_mode_store kstrtoint_ref (bench_fan_data 2) (echo "2") 2)
           (kernel bench_auto)) =
    (2, with_mode GBOX_FAN_STATE_AUTO (bench_fan_data 2)).
Proof.
  assert (E : kstrtoint_ref (echo "2") 3 = (0, GBOX_FAN_STATE_AUTO))
    by (vm_compute; reflexivity).
  split; [exact E |]. split; [vm_compute; reflexivity |].
  exact (proj1 (auto_store_ignores_scheduler kstrtoint_ref (bench_fan_data 2)
                  (echo "2") 2 (kernel bench_auto) E)).
Defined.

Lemma auto_entry_requests_tick_witness :
  mode (bench_fan_data 2) = GBOX_FAN_STATE_AUTO /\
  gpio_lines (snd (run (gbox_fan_mode_set (bench_fan_data 2))
                       (kernel bench_booted))) =
    gpio_lines (kernel bench_booted).
Proof.
  split; [reflexivity |].
  exact (proj1 (proj2
    (auto_entry_requests_tick (bench_fan_data 2) (kernel bench_booted)
       eq_refl))).
Defined.

Lemma trig_temp_fixed_witness :
  boot (bench_world (Some 50) 55) = Some bench_booted /\
  trig_temp (drvdata (exec 100 INT_MAX kstrtoint_ref
                        [ev_store (echo "2") 2; ev_timer; ev_remove]
                        bench_booted)) =
    match of_u32 (plat (bench_world (Some 50) 55)) !! "trig-temp" with
    | Some v => int_of_u32 v
    | None => 50
    end.
Proof.
  assert (B : boot (bench_world (Some 50) 55) = Some bench_booted)
    by (vm_compute; reflexivity).
  split; [exact B |].
  exact (trig_temp_fixed 100 INT_MAX kstrtoint_ref
           (bench_world (Some 50) 55) bench_booted _ B).
Defined.

Lemma store_out_of_range_witness :
  kstrtoint_ref (echo "10") 3 = (0, 3) /\
  run (fan_mode_store kstrtoint_ref (bench_fan_data 2) (echo "10") 3)
      (kernel bench_auto) =
    ((3, with_mode 3 (bench_fan_data 2)), kernel bench_auto).
Proof.
  assert (E : kstrtoint_ref (echo "10") 3 = (0, 3))
    by (vm_compute; reflexivity).
  split; [exact E |].
  refine (proj1 (store_out_of_range kstrtoint_ref (bench_fan_data 2)
                   (echo "10") 3 (kernel bench_auto) 3 E _ _ _));
    discriminate.
Defined.

(** C4 fails as stated: entering Auto on the bench device right after its
    probe, the calls are the one request to schedule, and no cancellation
    comes before it. *)
Lemma auto_entry_skips_cancel :
  ~ (mode (bench_fan_data 2) = GBOX_FAN_STATE_OFF \/
     mode (bench_fan_data 2) = GBOX_FAN_STATE_ON \/
     mode (bench_fan_data 2) = GBOX_FAN_STATE_AUTO ->
     cancels_first
       (calls_of (gbox_fan_mode_set (bench_fan_data 2))
                 (kernel bench_booted)) = true).
Proof.
  intros H. specialize (H (or_intror (or_intror eq_refl))).
  vm_compute in H. discriminate H.
Qed.

(** C6 fails as stated: "10" and a line feed, three bytes, is read in base
    3 as the integer 3, which is no mode; the store returns 3, the count,
    and not -EINVAL. *)
Lemma store_accepts_unknown_mode :
  ~ (kstrtoint_ref (echo "10") 3 = (0, 3) ->
     3 <> GBOX_FAN_STATE_OFF -> 3 <> GBOX_FAN_STATE_ON ->
     3 <> GBOX_FAN_STATE_AUTO ->
     fst (fst (run (fan_mode_store kstrtoint_ref (bench_fan_data 0)
                      (echo "10") 3)
                   (kernel bench_booted))) = - EINVAL).
Proof.
  intros H.
  assert (E : kstrtoint_ref (echo "10") 3 = (0, 3))
    by (vm_compute; reflexivity).
  specialize (H E).
  assert (H' := H ltac:(discriminate) ltac:(discriminate) ltac:(discriminate)).
  vm_compute in H'. discriminate H'.
Qed.

(** C7 fails as stated: with the device in Auto and the next tick queued,
    a store of Auto has its request to schedule refused, and still returns
    2, the count, which is no error. *)
Lemma refused_schedule_goes_unreported :
  ~ (kstrtoint_ref (echo "2") 3 = (0, GBOX_FAN_STATE_AUTO) ->
     fst (wq_schedule GBOX_FAN_LOOP_NODELAY_SECS (work (kernel bench_auto)))
       = false ->
     fst (fst (run (fan_mode_store kstrtoint_ref (drvdata bench_auto)
                      (echo "2") 2)
                   (kernel bench_auto))) < 0).
Proof.
  intros H.
  assert (E : kstrtoint_ref (echo "2") 3 = (0, GBOX_FAN_STATE_AUTO))
    by (vm_compute; reflexivity).
  assert (F : fst (wq_schedule GBOX_FAN_LOOP_NODELAY_SECS
                     (work (kernel bench_auto))) = false)
    by (vm_compute; reflexivity).
  specialize (H E F). vm_compute in H. discriminate H.
Qed.

(** C8 fails as stated: with the device in Auto and the next tick queued
    3000 jiffies ahead, setting the mode to Auto again leaves that task as
    the only one; no tick with delay 0 is queued. *)
Lemma auto_reentry_keeps_pending_delay :
  ~ (mode (drvdata bench_auto) = GBOX_FAN_STATE_AUTO ->
     In GBOX_FAN_LOOP_NODELAY_SECS
        (armed (work (snd (run (gbox_fan_mode_set (drvdata bench_auto))
                               (kernel bench_auto))))) /\
     gpio_lines (snd (run (gbox_fan_mode_set (drvdata bench_auto))
                          (kernel bench_auto))) =
       gpio_lines (kernel bench_auto)).
Proof.
  intros H.
  assert (M : mode (drvdata bench_auto) = GBOX_FAN_STATE_AUTO)
    by (vm_compute; reflexivity).
  destruct (H M) as [HIn _]. vm_compute in HIn.
  destruct HIn as [HIn | []]. discriminate HIn.
Qed.

(** ** Further properties of the driver *)

(** *** The events one by one *)

Section Steps.

Variable HZ : Z.
Variable INVALID_TEMP : Z.
Variable kstrtoint : string -> Z -> Z * Z.

Lemma step_store_read (buf : string) (count m : Z) (s : system) :
  kstrtoint buf 3 = (0, m) ->
  step HZ INVALID_TEMP kstrtoint (ev_store buf count) s =
    {| drvdata := with_mode m (drvdata s);
       kernel := snd (run (gbox_fan_mode_set (with_mode m (drvdata s)))
                          (kernel s)) |}.
Proof.
  intros E. unfold step. rewrite run_fan_mode_store, E. reflexivity.
Qed.

Lemma step_store_unread (buf : string) (count : Z) (s : system) :
  fst (kstrtoint buf 3) <> 0 ->
  step HZ INVALID_TEMP kstrtoint (ev_store buf count) s = s.
Proof.
  intros E. unfold step. rewrite run_fan_mode_store.
  destruct (Z.eqb_spec (fst (kstrtoint buf 3)) 0); [contradiction |].
  destruct s; reflexivity.
Qed.

Lemma tick_nothing_queued (s : system) :
  armed (work (kernel s)) = [] -> tick HZ INVALID_TEMP s = s.
Proof. intros E. unfold tick, wq_fire. rewrite E. reflexivity. Qed.

Lemma tick_queued (s : system) (delay : Z) (rest : list Z) :
  armed (work (kernel s)) = delay :: rest ->
  tick HZ INVALID_TEMP s =
    {| drvdata := drvdata s;
       kernel :=
         {| gpio_lines :=
              <[ctrl_gpio (drvdata s) :=
                  tick_level INVALID_TEMP (drvdata s) (reading (kernel s))]>
                (gpio_lines (kernel s));
            work := {| pending := true; armed := 30 * HZ :: rest |};
            sens := sens (kernel s);
            plat := plat (kernel s);
            klog := klog (kernel s) ++
              [ some_call (regulator_get_voltage (regulator (drvdata s)));
                some_call (rockchip_tsadc_get_temp 0
                             (vdd_arm (sens (kernel s))));
                some_call (gpio_set_value (ctrl_gpio (drvdata s))
                             (tick_level INVALID_TEMP (drvdata s)
                                (reading (kernel s))));
                some_call (schedule_delayed_work (30 * HZ)) ] |} |}.
Proof.
  intros E. unfold tick, wq_fire. rewrite E.
  rewrite run_fan_work_func. reflexivity.
Qed.

(** No event rewires the device: the line, the regulator and the trigger
    temperature of the driver data stay. *)
Lemma step_wiring (e : event) (s : system) :
  ctrl_gpio (drvdata (step HZ INVALID_TEMP kstrtoint e s)) =
    ctrl_gpio (drvdata s) /\
  regulator (drvdata (step HZ INVALID_TEMP kstrtoint e s)) =
    regulator (drvdata s).
Proof.
  destruct e as [buf count | | sn | |]; unfold step.
  - rewrite run_fan_mode_store.
    destruct (fst (kstrtoint buf 3) =? 0); split; reflexivity.
  - unfold tick. destruct (wq_fire _); [| split; reflexivity].
    rewrite run_fan_work_func. split; reflexivity.
  - split; reflexivity.
  - rewrite run_gbox_fan_remove. split; reflexivity.
  - rewrite run_gbox_fan_shutdown. split; reflexivity.
Qed.

Lemma exec_wiring (evs : list event) (s : system) :
  ctrl_gpio (drvdata (exec HZ INVALID_TEMP kstrtoint evs s)) =
    ctrl_gpio (drvdata s) /\
  regulator (drvdata (exec HZ INVALID_TEMP kstrtoint evs s)) =
    regulator (drvdata s).
Proof.
  revert s. induction evs as [| e evs IH]; intros s; simpl.
  - split; reflexivity.
  - destruct (IH (step HZ INVALID_TEMP kstrtoint e s)) as [Hg Hr].
    destruct (step_wiring e s) as [Hg' Hr'].
    split; congruence.
Qed.

Lemma exec_app (evs1 evs2 : list event) (s : system) :
  exec HZ INVALID_TEMP kstrtoint (evs1 ++ evs2) s =
  exec HZ INVALID_TEMP kstrtoint evs2 (exec HZ INVALID_TEMP kstrtoint evs1 s).
Proof. unfold exec. apply fold_left_app. Qed.

End Steps.

(** *** The probe *)

(** What a run of the probe amounts to when the allocation and the request
    of the line succeed. *)
Lemma run_gbox_fan_probe_requested (w : world) :
  alloc_ok (plat w) = true ->
  gpio_request_ret (plat w) (configured_gpio (plat w)) = 0 ->
  fst (run gbox_fan_probe w) =
    (if class_err (plat w) <? 0 then class_err (plat w) else 0,
     Some {| regulator := regulator_handle (plat w);
             mode := GBOX_FAN_STATE_OFF;
             ctrl_gpio := configured_gpio (plat w);
             trig_temp := configured_trig_temp (plat w) |}) /\
  gpio_lines (snd (run gbox_fan_probe w)) =
    <[configured_gpio (plat w) := GBOX_FAN_GPIO_OFF]> (gpio_lines w) /\
  work (snd (run gbox_fan_probe w)) = idle /\
  existsb is_schedule (calls_of gbox_fan_probe w) = false.
Proof.
  unfold gbox_fan_probe, configured_gpio, configured_trig_temp, calls_of.
  intros Ha Hr. simpl. rewrite Ha. simpl.
  destruct (of_u32 (plat w) !! "trig-temp") as [v |]; simpl;
    destruct (of_gpio (plat w) !! "ctrl-gpio") as [g |]; simpl;
    rewrite Hr; simpl;
    destruct (class_err (plat w) <? 0); simpl;
    repeat split; reflexivity.
Qed.

(** X1.  The value the probe returns is -ENOMEM when the allocation fails,
    otherwise -EIO when the request of the control line answers anything
    but 0, otherwise the error of class_create when there is one, otherwise
    0; a device tree without "trig-temp" or "ctrl-gpio" is no error of its
    own, and nothing [regulator_get] answers is one. *)
Theorem probe_return_value (w : world) :
  fst (fst (run gbox_fan_probe w)) = probe_status (plat w).
Proof.
  unfold probe_status.
  destruct (alloc_ok (plat w)) eqn:Ha; cbn [negb].
  - destruct (Z.eqb_spec (gpio_request_ret (plat w) (configured_gpio (plat w))) 0)
      as [Hr | Hr]; cbn [negb].
    + destruct (run_gbox_fan_probe_requested w Ha Hr) as (E & _).
      rewrite E. reflexivity.
    + unfold gbox_fan_probe, configured_gpio in *. simpl. rewrite Ha. simpl.
      destruct (of_u32 (plat w) !! "trig-temp") as [v |]; simpl;
        destruct (of_gpio (plat w) !! "ctrl-gpio") as [g |]; simpl;
        (match goal with
         | |- context [?a =? 0] => destruct (Z.eqb_spec a 0)
         end; [contradiction | reflexivity]).
  - unfold gbox_fan_probe. simpl. rewrite Ha. reflexivity.
Qed.

(** X2.  A probe that fails early, on the allocation or on the request of
    the control line, has driven no GPIO line and has not touched the
    delayed work: no call of it writes a line or schedules. *)
Theorem probe_early_failure_is_clean (w : world) :
  alloc_ok (plat w) = false \/
  gpio_request_ret (plat w) (configured_gpio (plat w)) <> 0 ->
  gpio_lines (snd (run gbox_fan_probe w)) = gpio_lines w /\
  work (snd (run gbox_fan_probe w)) = work w /\
  existsb is_gpio_write (calls_of gbox_fan_probe w) = false /\
  existsb is_schedule (calls_of gbox_fan_probe w) = false.
Proof.
  unfold gbox_fan_probe, configured_gpio, calls_of. intros H. simpl.
  destruct (alloc_ok (plat w)) eqn:Ha; simpl.
  - destruct H as [H | H]; [discriminate |].
    destruct (of_u32 (plat w) !! "trig-temp") as [v |]; simpl;
      destruct (of_gpio (plat w) !! "ctrl-gpio") as [g |]; simpl in *;
      (match goal with
       | |- context [?a =? 0] => destruct (Z.eqb_spec a 0)
       end; [contradiction | simpl; repeat split; reflexivity]).
  - repeat split; reflexivity.
Qed.

(** X3.  A probe that fails late, on class_create, returns that error and
    undoes nothing: the control line stays driven OFF and the driver data
    stays filled in, with the mode at Off. *)
Theorem probe_late_failure_keeps_pin (w : world) :
  alloc_ok (plat w) = true ->
  gpio_request_ret (plat w) (configured_gpio (plat w)) = 0 ->
  class_err (plat w) < 0 ->
  fst (fst (run gbox_fan_probe w)) = class_err (plat w) /\
  boot w = None /\
  line (snd (run gbox_fan_probe w)) (configured_gpio (plat w)) =
    Some GBOX_FAN_GPIO_OFF /\
  (exists fan_data,
     snd (fst (run gbox_fan_probe w)) = Some fan_data /\
     mode fan_data = GBOX_FAN_STATE_OFF /\
     ctrl_gpio fan_data = configured_gpio (plat w)).
Proof.
  intros Ha Hr Hc.
  destruct (run_gbox_fan_probe_requested w Ha Hr) as (E & Hl & _).
  assert (Hlt : (class_err (plat w) <? 0) = true) by (apply Z.ltb_lt; exact Hc).
  rewrite Hlt in E.
  split; [rewrite E; reflexivity |]. split.
  - unfold boot. destruct (run gbox_fan_probe w) as [[r o] w'].
    cbn [fst] in E. injection E as -> ->.
    destruct (class_err (plat w)); [lia | lia | reflexivity].
  - split.
    + unfold line. rewrite Hl. apply lookup_insert_eq.
    + eexists. rewrite E. cbn [snd]. repeat split; reflexivity.
Qed.

(** X4.  After a probe that returns 0 the mode is Off, the control line is
    the one the device tree names and is driven OFF, the regulator is the
    one [regulator_get] gave, and no poll task is queued: the probe
    schedules nothing. *)
Theorem probe_initial_state (w : world) (s : system) :
  boot w = Some s ->
  mode (drvdata s) = GBOX_FAN_STATE_OFF /\
  ctrl_gpio (drvdata s) = configured_gpio (plat w) /\
  regulator (drvdata s) = regulator_handle (plat w) /\
  line (kernel s) (ctrl_gpio (drvdata s)) = Some GBOX_FAN_GPIO_OFF /\
  pending_tasks (kernel s) = 0%nat /\
  existsb is_schedule (calls_of gbox_fan_probe w) = false.
Proof.
  intros B. pose proof (boot_spec w s B) as (Hd & Hw & Hl & _).
  rewrite Hd. cbn [mode ctrl_gpio regulator].
  repeat split; try reflexivity.
  - unfold line. rewrite Hl. apply lookup_insert_eq.
  - unfold pending_tasks. rewrite Hw. reflexivity.
  - unfold boot in B. unfold calls_of, gbox_fan_probe in *. simpl in *.
    destruct (alloc_ok (plat w)); simpl in *; [| discriminate].
    destruct (of_u32 (plat w) !! "trig-temp") as [v |]; simpl in *;
      destruct (of_gpio (plat w) !! "ctrl-gpio") as [g |]; simpl in *;
      (destruct (gpio_request_ret (plat w) _ =? 0); simpl in *;
       [| discriminate]);
      destruct (class_err (plat w) <? 0); reflexivity.
Qed.

(** *** The manual modes *)

Lemma wq_cancel_idle (d : delayed_work) :
  wq_ok d -> snd (wq_cancel d) = idle.
Proof.
  unfold wq_ok, wq_cancel, idle.
  destruct d as [[|] [| x [| y q]]]; simpl; intros H;
    try discriminate; reflexivity.
Qed.

Lemma run_mode_set_off (fan_data : gbox_fan_data) (w : world) :
  mode fan_data = GBOX_FAN_STATE_OFF ->
  gpio_lines (snd (run (gbox_fan_mode_set fan_data) w)) =
    <[ctrl_gpio fan_data := GBOX_FAN_GPIO_OFF]> (gpio_lines w) /\
  work (snd (run (gbox_fan_mode_set fan_data) w)) = snd (wq_cancel (work w)).
Proof.
  intros Hm. rewrite run_gbox_fan_mode_set.
  unfold mode_set_lines, mode_set_work. rewrite Hm. split; reflexivity.
Qed.


(** X5.  Removal and shutdown both leave the mode at Off, the control line
    driven OFF and no task queued, from any state in which flag and queue
    agree; they cancel, then drive the line, and removal then puts the
    regulator back and returns 0, which shutdown does not do. *)
Theorem teardown_turns_off (fan_data : gbox_fan_data) (w : world) :
  wq_ok (work w) ->
  (fst (run (gbox_fan_remove fan_data) w) =
     (0, with_mode GBOX_FAN_STATE_OFF fan_data) /\
   gpio_lines (snd (run (gbox_fan_remove fan_data) w)) =
     <[ctrl_gpio fan_data := GBOX_FAN_GPIO_OFF]> (gpio_lines w) /\
   work (snd (run (gbox_fan_remove fan_data) w)) = idle /\
   calls_of (gbox_fan_remove fan_data) w =
     [ some_call cancel_delayed_work;
       some_call (gpio_set_value (ctrl_gpio fan_data) GBOX_FAN_GPIO_OFF);
       some_call (regulator_put (regulator fan_data)) ]) /\
  (snd (fst (run (gbox_fan_shutdown fan_data) w)) =
     with_mode GBOX_FAN_STATE_OFF fan_data /\
   gpio_lines (snd (run (gbox_fan_shutdown fan_data) w)) =
     <[ctrl_gpio fan_data := GBOX_FAN_GPIO_OFF]> (gpio_lines w) /\
   work (snd (run (gbox_fan_shutdown fan_data) w)) = idle /\
   calls_of (gbox_fan_shutdown fan_data) w =
     [ some_call cancel_delayed_work;
       some_call (gpio_set_value (ctrl_gpio fan_data) GBOX_FAN_GPIO_OFF) ]).
Proof.
  intros Hok.
  pose proof (wq_cancel_idle _ Hok) as Hc.
  assert (Hm : mode (with_mode GBOX_FAN_STATE_OFF fan_data)
               = GBOX_FAN_STATE_OFF) by reflexivity.
  split.
  - unfold calls_of. rewrite !run_gbox_fan_remove. cbv zeta.
    cbn [fst snd gpio_lines work with_klog klog].
    destruct (run_mode_set_off _ w Hm) as [Hl Hw].
    rewrite Hl, Hw, Hc. rewrite run_gbox_fan_mode_set.
    repeat split; reflexivity.
  - unfold calls_of. rewrite !run_gbox_fan_shutdown. cbv zeta.
    cbn [fst snd].
    destruct (run_mode_set_off _ w Hm) as [Hl Hw].
    rewrite Hl, Hw, Hc. rewrite run_gbox_fan_mode_set.
    repeat split; reflexivity.
Qed.

Section Manual.

Variable HZ : Z.
Variable INVALID_TEMP : Z.
Variable kstrtoint : string -> Z -> Z * Z.







End Manual.

(** *** Stores, ticks and what they leave alone *)

Lemma mode_set_lines_twice (fan_data : gbox_fan_data) (l : gmap Z Z) :
  mode_set_lines fan_data (mode_set_lines fan_data l) =
  mode_set_lines fan_data l.
Proof.
  unfold mode_set_lines.
  destruct (mode fan_data =? GBOX_FAN_STATE_OFF);
    [apply insert_insert_eq |].
  destruct (mode fan_data =? GBOX_FAN_STATE_ON);
    [apply insert_insert_eq | reflexivity].
Qed.

Lemma mode_set_work_twice (fan_data : gbox_fan_data) (d : delayed_work) :
  mode_set_work fan_data (mode_set_work fan_data d) =
  mode_set_work fan_data d.
Proof.
  unfold mode_set_work, wq_cancel, wq_schedule.
  destruct (mode fan_data =? GBOX_FAN_STATE_OFF);
    [destruct d as [[|] q]; reflexivity |].
  destruct (mode fan_data =? GBOX_FAN_STATE_ON);
    [destruct d as [[|] q]; reflexivity |].
  destruct (mode fan_data =? GBOX_FAN_STATE_AUTO);
    [destruct d as [[|] q]; reflexivity | reflexivity].
Qed.

Lemma tick_level_binary (INVALID_TEMP : Z) (fan_data : gbox_fan_data)
    (temp : Z) :
  tick_level INVALID_TEMP fan_data temp = GBOX_FAN_GPIO_OFF \/
  tick_level INVALID_TEMP fan_data temp = GBOX_FAN_GPIO_ON.
Proof. unfold tick_level. destruct (_ && _); [right | left]; reflexivity. Qed.

Section Frame.

Variable HZ : Z.
Variable INVALID_TEMP : Z.
Variable kstrtoint : string -> Z -> Z * Z.

(** The GPIO lines after an event, by cases. *)
Lemma step_lines (e : event) (s : system) :
  gpio_lines (kernel (step HZ INVALID_TEMP kstrtoint e s)) =
    gpio_lines (kernel s) \/
  (exists v,
     (v = GBOX_FAN_GPIO_OFF \/ v = GBOX_FAN_GPIO_ON) /\
     gpio_lines (kernel (step HZ INVALID_TEMP kstrtoint e s)) =
       <[ctrl_gpio (drvdata s) := v]> (gpio_lines (kernel s))).
Proof.
  destruct e as [buf count | | sn | |].
  - unfold step. rewrite run_fan_mode_store.
    destruct (fst (kstrtoint buf 3) =? 0); [| left; reflexivity].
    cbv zeta. rewrite run_gbox_fan_mode_set.
    unfold mode_set_lines. cbn [kernel snd gpio_lines ctrl_gpio with_mode].
    destruct (mode _ =? GBOX_FAN_STATE_OFF);
      [right; exists GBOX_FAN_GPIO_OFF; split; [left |]; reflexivity |].
    destruct (mode _ =? GBOX_FAN_STATE_ON);
      [right; exists GBOX_FAN_GPIO_ON; split; [right |]; reflexivity |].
    left; reflexivity.
  - cbn [step].
    destruct (armed (work (kernel s))) as [| delay rest] eqn:Hq.
    + rewrite tick_nothing_queued by exact Hq. left; reflexivity.
    + rewrite (tick_queued HZ INVALID_TEMP s delay rest Hq).
      right. eexists. split; [apply tick_level_binary | reflexivity].
  - left; reflexivity.
  - unfold step. rewrite run_gbox_fan_remove. cbv zeta.
    rewrite run_gbox_fan_mode_set.
    right; exists GBOX_FAN_GPIO_OFF; split; [left |]; reflexivity.
  - unfold step. rewrite run_gbox_fan_shutdown. cbv zeta.
    rewrite run_gbox_fan_mode_set.
    right; exists GBOX_FAN_GPIO_OFF; split; [left |]; reflexivity.
Qed.

(** X8.  Writing the same buffer to the mode attribute twice leaves the
    device as writing it once does: the same driver data, the same GPIO
    lines, the same delayed work; this holds for every buffer, read or
    not, and every state. *)
Theorem store_twice_is_store_once (buf : string) (count : Z) (s : system) :
  drvdata (exec HZ INVALID_TEMP kstrtoint
             [ev_store buf count; ev_store buf count] s) =
    drvdata (exec HZ INVALID_TEMP kstrtoint [ev_store buf count] s) /\
  gpio_lines (kernel (exec HZ INVALID_TEMP kstrtoint
                        [ev_store buf count; ev_store buf count] s)) =
    gpio_lines (kernel (exec HZ INVALID_TEMP kstrtoint
                          [ev_store buf count] s)) /\
  work (kernel (exec HZ INVALID_TEMP kstrtoint
                  [ev_store buf count; ev_store buf count] s)) =
    work (kernel (exec HZ INVALID_TEMP kstrtoint [ev_store buf count] s)).
Proof.
  cbn [exec fold_left].
  destruct (kstrtoint buf 3) as [err m] eqn:E.
  destruct (Z.eqb_spec err 0) as [-> | Hne].
  - rewrite !(step_store_read HZ INVALID_TEMP kstrtoint buf count m _ E).
    cbn [drvdata kernel]. rewrite !run_gbox_fan_mode_set.
    cbn [snd gpio_lines work].
    split; [reflexivity |].
    split; [apply mode_set_lines_twice | apply mode_set_work_twice].
  - rewrite !step_store_unread by (rewrite E; exact Hne).
    repeat split; reflexivity.
Qed.

(** X9.  No event drives a GPIO line other than the control line of the
    device, and none rewires the device: after any sequence of events
    every other line has the level it had, and the driver data names the
    same control line and regulator. *)
Theorem other_lines_untouched (evs : list event) (s : system) (g : Z) :
  g <> ctrl_gpio (drvdata s) ->
  line (kernel (exec HZ INVALID_TEMP kstrtoint evs s)) g = line (kernel s) g /\
  ctrl_gpio (drvdata (exec HZ INVALID_TEMP kstrtoint evs s)) =
    ctrl_gpio (drvdata s) /\
  regulator (drvdata (exec HZ INVALID_TEMP kstrtoint evs s)) =
    regulator (drvdata s).
Proof.
  intros Hg. split; [| apply exec_wiring].
  revert s Hg. induction evs as [| e evs IH]; intros s Hg; simpl.
  - reflexivity.
  - destruct (step_wiring HZ INVALID_TEMP kstrtoint e s) as [Hc _].
    rewrite IH by (rewrite Hc; exact Hg).
    unfold line.
    destruct (step_lines e s) as [-> | (v & _ & ->)]; [reflexivity |].
    apply lookup_insert_ne. congruence.
Qed.

(** X10.  After a successful probe and any sequence of events the control
    line is driven, and its level is OFF or ON: the driver writes no other
    value. *)
Theorem pin_is_on_or_off (w0 : world) (s0 : system) (evs : list event) :
  boot w0 = Some s0 ->
  line (kernel (exec HZ INVALID_TEMP kstrtoint evs s0))
       (ctrl_gpio (drvdata s0)) = Some GBOX_FAN_GPIO_OFF \/
  line (kernel (exec HZ INVALID_TEMP kstrtoint evs s0))
       (ctrl_gpio (drvdata s0)) = Some GBOX_FAN_GPIO_ON.
Proof.
  intros B. apply boot_spec in B as (Hd & _ & Hl & _).
  assert (H0 : line (kernel s0) (ctrl_gpio (drvdata s0))
               = Some GBOX_FAN_GPIO_OFF \/
               line (kernel s0) (ctrl_gpio (drvdata s0))
               = Some GBOX_FAN_GPIO_ON).
  { left. unfold line. rewrite Hl, Hd. apply lookup_insert_eq. }
  clear Hd Hl. revert H0. generalize s0. clear s0.
  induction evs as [| e evs IH]; intros s H0; simpl; [exact H0 |].
  destruct (step_wiring HZ INVALID_TEMP kstrtoint e s) as [Hc _].
  rewrite <- Hc. apply IH. rewrite Hc. unfold line in *.
  destruct (step_lines e s) as [-> | (v & Hv & ->)]; [exact H0 |].
  rewrite lookup_insert_eq. destruct Hv as [-> | ->]; [left | right];
    reflexivity.
Qed.

End Frame.

(** *** The poll loop over time *)

Section Loop.

Variable HZ : Z.
Variable INVALID_TEMP : Z.
Variable kstrtoint : string -> Z -> Z * Z.

Lemma step_keeps_task (e : event) (s : system) :
  ~ leaves_auto kstrtoint e ->
  pending_tasks (kernel s) <> 0%nat ->
  pending_tasks (kernel (step HZ INVALID_TEMP kstrtoint e s)) <> 0%nat.
Proof.
  unfold pending_tasks. intros Hn H1.
  destruct (armed (work (kernel s))) as [| delay rest] eqn:Hq;
    [contradiction |].
  destruct e as [buf count | | sn | |]; cbn [leaves_auto] in Hn.
  - destruct (kstrtoint buf 3) as [err m] eqn:E.
    destruct (Z.eqb_spec err 0) as [-> | Hne].
    + rewrite (step_store_read HZ INVALID_TEMP kstrtoint buf count m s E).
      cbn [kernel]. rewrite run_gbox_fan_mode_set.
      unfold mode_set_work. cbn [snd work mode with_mode].
      destruct (Z.eqb_spec m GBOX_FAN_STATE_OFF) as [-> | ?];
        [exfalso; apply Hn; left; reflexivity |].
      destruct (Z.eqb_spec m GBOX_FAN_STATE_ON) as [-> | ?];
        [exfalso; apply Hn; right; reflexivity |].
      destruct (m =? GBOX_FAN_STATE_AUTO); [| rewrite Hq; discriminate].
      unfold wq_schedule. destruct (pending (work (kernel s)));
        cbn [snd armed]; [rewrite Hq |]; discriminate.
    + rewrite step_store_unread by (rewrite E; exact Hne).
      rewrite Hq. discriminate.
  - cbn [step]. rewrite (tick_queued HZ INVALID_TEMP s delay rest Hq).
    discriminate.
  - cbn [step kernel with_sens work]. rewrite Hq. discriminate.
  - exfalso; apply Hn; exact I.
  - exfalso; apply Hn; exact I.
Qed.

(** X11.  Once a poll task is queued, one stays queued through any
    sequence of events none of which is a store of Off or On, a removal or
    a shutdown: ticks, sensor changes, stores of Auto, stores of values
    that are no mode and stores that are not read never end the loop. *)
Theorem auto_loop_persists (evs : list event) (s : system) :
  Forall (fun e => ~ leaves_auto kstrtoint e) evs ->
  pending_tasks (kernel s) <> 0%nat ->
  pending_tasks (kernel (exec HZ INVALID_TEMP kstrtoint evs s)) <> 0%nat.
Proof.
  intros HF. revert s. induction HF as [| e evs He HF IH]; intros s H1; simpl.
  - exact H1.
  - apply IH. apply step_keeps_task; assumption.
Qed.

(** X12.  A store of an integer that is no mode, made while a poll task is
    queued, changes what the mode attribute reports and nothing else: the
    task stays queued, and when it comes due the tick drives the control
    line from the reading as before and queues the next one. *)
Theorem unknown_mode_leaves_loop_running (buf : string) (count m : Z)
    (s : system) (delay : Z) (rest : list Z) :
  kstrtoint buf 3 = (0, m) ->
  m <> GBOX_FAN_STATE_OFF -> m <> GBOX_FAN_STATE_ON ->
  m <> GBOX_FAN_STATE_AUTO ->
  armed (work (kernel s)) = delay :: rest ->
  mode (drvdata (step HZ INVALID_TEMP kstrtoint (ev_store buf count) s)) = m /\
  kernel (step HZ INVALID_TEMP kstrtoint (ev_store buf count) s) = kernel s /\
  line (kernel (exec HZ INVALID_TEMP kstrtoint
                  [ev_store buf count; ev_timer] s))
       (ctrl_gpio (drvdata s)) =
    Some (tick_level INVALID_TEMP (drvdata s) (reading (kernel s))) /\
  work (kernel (exec HZ INVALID_TEMP kstrtoint
                  [ev_store buf count; ev_timer] s)) =
    {| pending := true; armed := 30 * HZ :: rest |} /\
  mode (drvdata (exec HZ INVALID_TEMP kstrtoint
                   [ev_store buf count; ev_timer] s)) = m.
Proof.
  intros E H0 H1 H2 Hq. cbn [exec fold_left].
  rewrite (step_store_read HZ INVALID_TEMP kstrtoint buf count m s E).
  assert (Hk : snd (run (gbox_fan_mode_set (with_mode m (drvdata s)))
                        (kernel s)) = kernel s).
  { rewrite run_gbox_fan_mode_set.
    unfold mode_set_lines, mode_set_work, mode_set_calls.
    cbn [mode with_mode snd].
    destruct (Z.eqb_spec m GBOX_FAN_STATE_OFF); [contradiction |].
    destruct (Z.eqb_spec m GBOX_FAN_STATE_ON); [contradiction |].
    destruct (Z.eqb_spec m GBOX_FAN_STATE_AUTO); [contradiction |].
    rewrite app_nil_r. destruct (kernel s); reflexivity. }
  rewrite Hk. cbn [drvdata kernel mode with_mode].
  split; [reflexivity |]. split; [reflexivity |].
  cbn [step].
  rewrite (tick_queued HZ INVALID_TEMP
             {| drvdata := with_mode m (drvdata s); kernel := kernel s |}
             delay rest Hq).
  cbn [drvdata kernel mode with_mode ctrl_gpio gpio_lines work].
  unfold line. cbn [gpio_lines].
  split; [apply lookup_insert_eq |]. split; reflexivity.
Qed.


End Loop.

(** *** The mode attribute read back *)

Lemma append_LF_inj (a b : string) :
  (a +:+ LF)%string = (b +:+ LF)%string -> a = b.
Proof.
  revert b. induction a as [| c a IH]; intros [| c' b] H; simpl in H.
  - reflexivity.
  - injection H as _ H. destruct b; discriminate H.
  - injection H as _ H. destruct a; discriminate H.
  - injection H as -> H. f_equal. apply IH. exact H.
Qed.

Lemma show_text_inj (m1 m2 : Z) :
  ("Fan mode: " +:+ pretty m1 +:+ LF)%string =
  ("Fan mode: " +:+ pretty m2 +:+ LF)%string -> m1 = m2.
Proof.
  intros H. apply (String.app_inj "Fan mode: ") in H.
  apply append_LF_inj in H. apply pretty_Z_inj in H. exact H.
Qed.

(** X14.  The text [fan_mode_show] writes identifies the mode field: two
    driver data print the same text exactly when they hold the same
    integer as mode, whatever their other members and whether or not the
    integer is a mode. *)
Theorem show_identifies_mode (fan_data1 fan_data2 : gbox_fan_data) :
  snd (fan_mode_show fan_data1) = snd (fan_mode_show fan_data2) <->
  mode fan_data1 = mode fan_data2.
Proof.
  unfold fan_mode_show. cbn [snd]. split.
  - apply show_text_inj.
  - intros ->. reflexivity.
Qed.

(** X15.  A store that is read, followed by a show, gives back the integer
    that was read from the buffer: the text is "Fan mode: ", the integer in
    decimal and a line feed, and it is the text of no other integer. *)
Theorem store_show_round_trip (kstrtoint : string -> Z -> Z * Z)
    (fan_data : gbox_fan_data) (buf : string) (count : Z) (w : world)
    (m : Z) :
  kstrtoint buf 3 = (0, m) ->
  snd (fan_mode_show
         (snd (fst (run (fan_mode_store kstrtoint fan_data buf count) w)))) =
    ("Fan mode: " +:+ pretty m +:+ LF)%string /\
  (forall m',
     snd (fan_mode_show
            (snd (fst (run (fan_mode_store kstrtoint fan_data buf count) w))))
       = ("Fan mode: " +:+ pretty m' +:+ LF)%string ->
     m' = m).
Proof.
  intros E. rewrite run_fan_mode_store, E. cbn [fst snd Z.eqb]. cbv zeta.
  unfold fan_mode_show. cbn [fst snd mode with_mode].
  split; [reflexivity |]. intros m' H. symmetry. apply show_text_inj. exact H.
Qed.

(** *** The trigger temperature as an int *)

Lemma int_of_u32_range (v : Z) : - 2 ^ 31 <= int_of_u32 v < 2 ^ 31.
Proof.
  unfold int_of_u32.
  pose proof (Z.mod_pos_bound v (2 ^ 32) ltac:(lia)) as Hb.
  destruct (Z.ltb_spec (v mod 2 ^ 32) (2 ^ 31)); lia.
Qed.

Lemma int_of_u32_mod (v : Z) : int_of_u32 v mod 2 ^ 32 = v mod 2 ^ 32.
Proof.
  unfold int_of_u32.
  destruct (Z.ltb_spec (v mod 2 ^ 32) (2 ^ 31)).
  - apply Z.mod_mod. lia.
  - replace (v mod 2 ^ 32 - 2 ^ 32) with (v mod 2 ^ 32 + (-1) * 2 ^ 32)
      by lia.
    rewrite Z_mod_plus_full. apply Z.mod_mod. lia.
Qed.

(** X16.  After a successful probe the trigger temperature is a value of
    an [int] that agrees with the "trig-temp" cell modulo 2^32: a cell
    below 2^31 is taken as it is, and a cell from 2^31 on, read through the
    [int] member, is a negative trigger, the cell less 2^32. *)
Theorem probe_trig_temp_is_int (w : world) (s : system) :
  boot w = Some s ->
  - 2 ^ 31 <= trig_temp (drvdata s) < 2 ^ 31 /\
  (forall v,
     of_u32 (plat w) !! "trig-temp" = Some v ->
     trig_temp (drvdata s) mod 2 ^ 32 = v mod 2 ^ 32 /\
     (0 <= v < 2 ^ 31 -> trig_temp (drvdata s) = v) /\
     (2 ^ 31 <= v < 2 ^ 32 -> trig_temp (drvdata s) = v - 2 ^ 32)).
Proof.
  intros B. apply boot_spec in B as (Hd & _). rewrite Hd.
  cbn [trig_temp]. unfold configured_trig_temp. split.
  - destruct (of_u32 (plat w) !! "trig-temp") as [v |];
      [apply int_of_u32_range | unfold GBOX_FAN_TRIG_TEMP; lia].
  - intros v ->. split; [apply int_of_u32_mod |]. split; intros Hv.
    + apply int_of_u32_small. exact Hv.
    + unfold int_of_u32. rewrite Z.mod_small by lia.
      destruct (Z.ltb_spec v (2 ^ 31)); lia.
Qed.

(** *** The pin follows the sensor *)

Section Tracking.

Variable HZ : Z.
Variable INVALID_TEMP : Z.
Variable kstrtoint : string -> Z -> Z * Z.

(** X17.  While the loop runs the pin follows the sensor: after any
    sequence of events none of which is a store of Off or On, a removal or
    a shutdown, the next tick drives the control line from the reading of
    that moment and the trigger temperature, whatever the line was and
    whatever the mode field holds by then. *)
Theorem auto_tracks_sensor (evs : list event) (s : system) :
  Forall (fun e => ~ leaves_auto kstrtoint e) evs ->
  pending_tasks (kernel s) <> 0%nat ->
  line (kernel (exec HZ INVALID_TEMP kstrtoint (evs ++ [ev_timer]) s))
       (ctrl_gpio (drvdata s)) =
    Some (if (trig_temp (drvdata s) <?
                reading (kernel (exec HZ INVALID_TEMP kstrtoint evs s))) &&
             negb (reading (kernel (exec HZ INVALID_TEMP kstrtoint evs s))
                     =? INVALID_TEMP)
          then GBOX_FAN_GPIO_ON else GBOX_FAN_GPIO_OFF).
Proof.
  intros HF H1.
  assert (Hq : pending_tasks
                 (kernel (exec HZ INVALID_TEMP kstrtoint evs s)) <> 0%nat).
  { clear - HF H1. revert s H1.
    induction HF as [| e evs He HF IH]; intros s H1; simpl; [exact H1 |].
    apply IH. apply step_keeps_task; assumption. }
  destruct (exec_wiring HZ INVALID_TEMP kstrtoint evs s) as [Hg _].
  pose proof (exec_trig_temp HZ INVALID_TEMP kstrtoint evs s) as Ht.
  rewrite exec_app. cbn [exec fold_left step].
  unfold pending_tasks in Hq.
  destruct (armed (work (kernel (exec HZ INVALID_TEMP kstrtoint evs s))))
    as [| delay rest] eqn:Ha; [contradiction |].
  rewrite (tick_queued HZ INVALID_TEMP _ delay rest Ha).
  unfold line, tick_level. cbn [kernel gpio_lines].
  rewrite Hg, Ht. apply lookup_insert_eq.
Qed.

End Tracking.

(** *** The properties on the bench *)

Lemma probe_early_failure_is_clean_witness :
  gpio_request_ret (plat bench_world_busy)
    (configured_gpio (plat bench_world_busy)) <> 0 /\
  fst (fst (run gbox_fan_probe bench_world_busy)) = - EIO /\
  gpio_lines (snd (run gbox_fan_probe bench_world_busy)) =
    gpio_lines bench_world_busy.
Proof.
  assert (H : gpio_request_ret (plat bench_world_busy)
                (configured_gpio (plat bench_world_busy)) <> 0)
    by (vm_compute; discriminate).
  split; [exact H |]. split; [vm_compute; reflexivity |].
  exact (proj1 (probe_early_failure_is_clean bench_world_busy
                  (or_intror H))).
Defined.

Lemma probe_late_failure_keeps_pin_witness :
  alloc_ok (plat bench_world_noclass) = true /\
  gpio_request_ret (plat bench_world_noclass)
    (configured_gpio (plat bench_world_noclass)) = 0 /\
  class_err (plat bench_world_noclass) < 0 /\
  fst (fst (run gbox_fan_probe bench_world_noclass)) = - ENOMEM /\
  line (snd (run gbox_fan_probe bench_world_noclass))
       (configured_gpio (plat bench_world_noclass)) = Some GBOX_FAN_GPIO_OFF.
Proof.
  assert (Ha : alloc_ok (plat bench_world_noclass) = true) by reflexivity.
  assert (Hr : gpio_request_ret (plat bench_world_noclass)
                 (configured_gpio (plat bench_world_noclass)) = 0)
    by (vm_compute; reflexivity).
  assert (Hc : class_err (plat bench_world_noclass) < 0)
    by (vm_compute; reflexivity).
  destruct (probe_late_failure_keeps_pin bench_world_noclass Ha Hr Hc)
    as (H1 & _ & H3 & _).
  split; [exact Ha |]. split; [exact Hr |]. split; [exact Hc |].
  split; [exact H1 | exact H3].
Defined.

Lemma probe_initial_state_witness :
  boot (bench_world (Some 50) 55) = Some bench_booted /\
  mode (drvdata bench_booted) = GBOX_FAN_STATE_OFF /\
  pending_tasks (kernel bench_booted) = 0%nat.
Proof.
  assert (B : boot (bench_world (Some 50) 55) = Some bench_booted)
    by (vm_compute; reflexivity).
  destruct (probe_initial_state _ _ B) as (H1 & _ & _ & _ & H5 & _).
  split; [exact B |]. split; [exact H1 | exact H5].
Defined.

Lemma teardown_turns_off_witness :
  wq_ok (work (kernel bench_auto)) /\
  pending_tasks (kernel bench_auto) = 1%nat /\
  work (snd (run (gbox_fan_remove (drvdata bench_auto)) (kernel bench_auto)))
    = idle /\
  work (snd (run (gbox_fan_shutdown (drvdata bench_auto))
                 (kernel bench_auto))) = idle.
Proof.
  assert (Hok : wq_ok (work (kernel bench_auto))) by (vm_compute; reflexivity).
  destruct (teardown_turns_off (drvdata bench_auto) (kernel bench_auto) Hok)
    as ((_ & _ & Hr & _) & (_ & _ & Hs & _)).
  split; [exact Hok |]. split; [vm_compute; reflexivity |].
  split; [exact Hr | exact Hs].
Defined.



Lemma other_lines_untouched_witness :
  18 <> ctrl_gpio (drvdata bench_booted) /\
  line (kernel (exec 100 INT_MAX kstrtoint_ref
                  [ev_store (echo "2") 2; ev_timer; ev_remove]
                  bench_booted)) 18 =
    line (kernel bench_booted) 18.
Proof.
  assert (H : 18 <> ctrl_gpio (drvdata bench_booted))
    by (vm_compute; discriminate).
  split; [exact H |].
  exact (proj1 (other_lines_untouched 100 INT_MAX kstrtoint_ref
                  [ev_store (echo "2") 2; ev_timer; ev_remove]
                  bench_booted 18 H)).
Defined.

Lemma pin_is_on_or_off_witness :
  boot (bench_world (Some 50) 55) = Some bench_booted /\
  (line (kernel (exec 100 INT_MAX kstrtoint_ref
                   [ev_store (echo "2") 2; ev_timer] bench_booted))
        (ctrl_gpio (drvdata bench_booted)) = Some GBOX_FAN_GPIO_OFF \/
   line (kernel (exec 100 INT_MAX kstrtoint_ref
                   [ev_store (echo "2") 2; ev_timer] bench_booted))
        (ctrl_gpio (drvdata bench_booted)) = Some GBOX_FAN_GPIO_ON).
Proof.
  assert (B : boot (bench_world (Some 50) 55) = Some bench_booted)
    by (vm_compute; reflexivity).
  split; [exact B |].
  exact (pin_is_on_or_off 100 INT_MAX kstrtoint_ref _ _
           [ev_store (echo "2") 2; ev_timer] B).
Defined.

Lemma auto_loop_persists_witness :
  Forall (fun e => ~ leaves_auto kstrtoint_ref e)
    [ev_timer; ev_store (echo "2") 2; ev_store (echo "10") 3;
     ev_store "auto" 4; ev_sensor (bench_sensor INT_MAX); ev_timer] /\
  pending_tasks (kernel bench_auto) <> 0%nat /\
  pending_tasks
    (kernel (exec 100 INT_MAX kstrtoint_ref
               [ev_timer; ev_store (echo "2") 2; ev_store (echo "10") 3;
                ev_store "auto" 4; ev_sensor (bench_sensor INT_MAX);
                ev_timer]
               bench_auto)) <> 0%nat.
Proof.
  assert (F : Forall (fun e => ~ leaves_auto kstrtoint_ref e)
                [ev_timer; ev_store (echo "2") 2; ev_store (echo "10") 3;
                 ev_store "auto" 4; ev_sensor (bench_sensor INT_MAX);
                 ev_timer]).
  { repeat constructor; vm_compute; intros H;
      try exact H; destruct H as [H | H]; discriminate H. }
  assert (H1 : pending_tasks (kernel bench_auto) <> 0%nat)
    by (vm_compute; discriminate).
  split; [exact F |]. split; [exact H1 |].
  exact (auto_loop_persists 100 INT_MAX kstrtoint_ref _ bench_auto F H1).
Defined.

Lemma unknown_mode_leaves_loop_running_witness :
  kstrtoint_ref (echo "10") 3 = (0, 3) /\
  armed (work (kernel bench_auto)) = [3000] /\
  mode (drvdata (exec 100 INT_MAX kstrtoint_ref
                   [ev_store (echo "10") 3; ev_timer] bench_auto)) = 3 /\
  work (kernel (exec 100 INT_MAX kstrtoint_ref
                  [ev_store (echo "10") 3; ev_timer] bench_auto)) =
    {| pending := true; armed := [30 * 100] |}.
Proof.
  assert (E : kstrtoint_ref (echo "10") 3 = (0, 3))
    by (vm_compute; reflexivity).
  assert (Hq : armed (work (kernel bench_auto)) = [3000])
    by (vm_compute; reflexivity).
  destruct (unknown_mode_leaves_loop_running 100 INT_MAX kstrtoint_ref
              (echo "10") 3 3 bench_auto 3000 [] E
              ltac:(discriminate) ltac:(discriminate) ltac:(discriminate) Hq)
    as (_ & _ & _ & Hw & Hm).
  split; [exact E |]. split; [exact Hq |]. split; [exact Hm | exact Hw].
Defined.


Lemma store_show_round_trip_witness :
  kstrtoint_ref (echo "-1") 3 = (0, -1) /\
  snd (fan_mode_show
         (snd (fst (run (fan_mode_store kstrtoint_ref (bench_fan_data 0)
                           (echo "-1") 3)
                        (kernel bench_booted))))) =
    ("Fan mode: " +:+ pretty (-1) +:+ LF)%string.
Proof.
  assert (E : kstrtoint_ref (echo "-1") 3 = (0, -1))
    by (vm_compute; reflexivity).
  split; [exact E |].
  exact (proj1 (store_show_round_trip kstrtoint_ref (bench_fan_data 0)
                  (echo "-1") 3 (kernel bench_booted) (-1) E)).
Defined.

Lemma probe_trig_temp_is_int_witness :
  boot (bench_world (Some 4294967286) 55) =
    Some {| drvdata := with_trig_temp (-10) (bench_fan_data 0);
            kernel := snd (run gbox_fan_probe
                             (bench_world (Some 4294967286) 55)) |} /\
  - 2 ^ 31 <= -10 < 2 ^ 31.
Proof.
  assert (B : boot (bench_world (Some 4294967286) 55) =
              Some {| drvdata := with_trig_temp (-10) (bench_fan_data 0);
                      kernel := snd (run gbox_fan_probe
                                       (bench_world (Some 4294967286) 55)) |})
    by (vm_compute; reflexivity).
  split; [exact B |].
  exact (proj1 (probe_trig_temp_is_int _ _ B)).
Defined.

Lemma auto_tracks_sensor_witness :
  Forall (fun e => ~ leaves_auto kstrtoint_ref e)
    [ev_timer; ev_sensor (bench_sensor 40)] /\
  pending_tasks (kernel bench_auto) <> 0%nat /\
  line (kernel (exec 100 INT_MAX kstrtoint_ref
                  ([ev_timer; ev_sensor (bench_sensor 40)] ++ [ev_timer])
                  bench_auto))
       (ctrl_gpio (drvdata bench_auto)) = Some GBOX_FAN_GPIO_OFF.
Proof.
  assert (F : Forall (fun e => ~ leaves_auto kstrtoint_ref e)
                [ev_timer; ev_sensor (bench_sensor 40)])
    by (repeat constructor; intros H; exact H).
  assert (H1 : pending_tasks (kernel bench_auto) <> 0%nat)
    by (vm_compute; discriminate).
  split; [exact F |]. split; [exact H1 |].
  exact (auto_tracks_sensor 100 INT_MAX kstrtoint_ref _ bench_auto F H1).
Defined.
